(** * hbsknowledgesheet: the fetch / normalize / dedupe / append pipeline

    A shallow embedding of [hbsknowledgesheet.py].  Python values that reach
    the pipeline are decoded JSON (API hits) and sheet cells (store records);
    Python exceptions are explicit error results; the network, the clock and
    the sheet are an explicit world and an explicit store. *)

From Stdlib Require Import List String Ascii Bool Arith ZArith Lia.
Import ListNotations.
Local Open Scope string_scope.
Local Open Scope list_scope.
#[local] Set Warnings "-register-all".

(** ** Python values and exceptions *)

(** Decoded JSON as Python sees it.  JSON objects keep their keys in
    insertion order, as Python dicts do; a lookup finds the first binding.
    JSON numbers are the integers (fractional numbers play no part in any
    field the pipeline inspects). *)
Inductive value : Type :=
| VNone
| VBool (b : bool)
| VInt (n : Z)
| VStr (s : string)
| VList (l : list value)
| VDict (d : list (string * value)).

(** The exceptions the pipeline can meet. *)
Inductive exn : Type :=
| AttributeError
| TypeError
| ValueError
| RequestException
| APIError.

(** A small error monad: [Ok v] is a normal return, [Raise e] an exception
    in flight. *)
Inductive result (A : Type) : Type :=
| Ok (a : A)
| Raise (e : exn).
Arguments Ok {A} a.
Arguments Raise {A} e.

Definition bind {A B : Type} (m : result A) (k : A -> result B) : result B :=
  match m with
  | Ok a => k a
  | Raise e => Raise e
  end.

Declare Scope py_scope.
Delimit Scope py_scope with py.
Notation "x <- m ;; k" := (bind m (fun x => k))
  (at level 61, m at next level, right associativity) : py_scope.
Notation "' pat <- m ;; k" := (bind m (fun x => match x with pat => k end))
  (at level 61, pat pattern, m at next level, right associativity) : py_scope.
Local Open Scope py_scope.

(** [try: m except Exception: h] *)
Definition try_except {A : Type} (m : result A) (h : exn -> A) : A :=
  match m with
  | Ok a => a
  | Raise e => h e
  end.

(** Python truthiness ([bool(v)], [not v], [v or w]). *)
Definition truthy (v : value) : bool :=
  match v with
  | VNone => false
  | VBool b => b
  | VInt n => negb (n =? 0)%Z
  | VStr s => negb (s =? "")
  | VList l => match l with [] => false | _ => true end
  | VDict d => match d with [] => false | _ => true end
  end.

Definition py_or (v w : value) : value := if truthy v then v else w.

Definition is_str (v : value) : bool :=
  match v with VStr _ => true | _ => false end.

Definition is_list (v : value) : bool :=
  match v with VList _ => true | _ => false end.

(** Lookup in the body of a dict. *)
Fixpoint assoc (k : string) (d : list (string * value)) : option value :=
  match d with
  | [] => None
  | (k', v) :: d' => if k' =? k then Some v else assoc k d'
  end.

(** [o.get(k, default)]: only dicts have the method. *)
Definition py_get (o : value) (k : string) (default : value) : result value :=
  match o with
  | VDict d => Ok (match assoc k d with Some v => v | None => default end)
  | _ => Raise AttributeError
  end.

(** [for x in v]: lists yield their items, strings their characters, dicts
    their keys; the other values are not iterable. *)
Fixpoint chars (s : string) : list value :=
  match s with
  | EmptyString => []
  | String c s' => VStr (String c EmptyString) :: chars s'
  end.

Definition py_iter (v : value) : result (list value) :=
  match v with
  | VList l => Ok l
  | VStr s => Ok (chars s)
  | VDict d => Ok (map (fun kv => VStr (fst kv)) d)
  | _ => Raise TypeError
  end.

(** [sep.join(items)] on already-iterated items: every item must be a
    string. *)
Fixpoint join_strs (sep : string) (l : list string) : string :=
  match l with
  | [] => ""
  | [s] => s
  | s :: l' => s ++ sep ++ join_strs sep l'
  end.

Fixpoint all_strs (l : list value) : result (list string) :=
  match l with
  | [] => Ok []
  | VStr s :: l' => r <- all_strs l' ;; Ok (s :: r)
  | _ :: _ => Raise TypeError
  end.

Definition py_join (sep : string) (v : value) : result string :=
  items <- py_iter v ;;
  strs <- all_strs items ;;
  Ok (join_strs sep strs).

(** [s.startswith(p)] *)
Fixpoint startswith (p s : string) : bool :=
  match p with
  | EmptyString => true
  | String a p' =>
      match s with
      | EmptyString => false
      | String b s' => (Ascii.eqb a b && startswith p' s')%bool
      end
  end.

(** [s.replace(old, new)] for a non-empty [old]: leftmost occurrences,
    not overlapping.  [skip] counts the characters of a match still to be
    dropped. *)
Fixpoint replace_from (old new : string) (skip : nat) (s : string) : string :=
  match s with
  | EmptyString => EmptyString
  | String c s' =>
      match skip with
      | S k => replace_from old new k s'
      | O =>
          if startswith old s
          then new ++ replace_from old new (String.length old - 1) s'
          else String c (replace_from old new 0 s')
      end
  end.

Definition replace (old new s : string) : string := replace_from old new 0 s.

(** ** Configuration constants *)

Definition COLUMNS : list string :=
  [ "Title"; "Publication Date"; "Author"; "faculty"; "Summary";
    "Article URL"; "ImageFile URL"; "Category"; "New Category";
    "Object ID"; "timestamp" ].

Definition all_valid_categories : list string :=
  [ "Accounting"; "Advertising"; "AI at Work"; "Artificial Intelligence";
    "Strategy"; "Leadership"; "Not Defined" ].

Definition in_strs (s : string) (l : list string) : bool :=
  existsb (String.eqb s) l.

(** ** Category Normalizer *)

Definition strs_of (l : list value) : list string :=
  flat_map (fun t => match t with VStr s => [s] | _ => [] end) l.

Definition normalize_categories (topics : value)
  : result (list string * list string) :=
  if negb (truthy topics) then Ok (["Not Defined"], [])
  else
    items <- py_iter topics ;;
    let cleaned := strs_of items in
    let allowed := filter (fun t => in_strs t all_valid_categories) cleaned in
    let new := filter (fun t => negb (in_strs t all_valid_categories)) cleaned in
    Ok (match allowed with [] => ["Not Defined"] | _ => allowed end, new).

(** ** Dates *)

Record date : Type := mkdate { year : nat; month : nat; day : nat }.

Definition digit_char (n : nat) : ascii := ascii_of_nat (48 + n mod 10).

(** [width] decimal digits of [n], zero padded (the low [width] digits). *)
Fixpoint zero_padded (width n : nat) : string :=
  match width with
  | O => ""
  | S w => zero_padded w (n / 10) ++ String (digit_char n) ""
  end.

(** [date.isoformat()]: [YYYY-MM-DD]. *)
Definition isoformat (d : date) : string :=
  zero_padded 4 (year d) ++ "-" ++ zero_padded 2 (month d) ++ "-"
  ++ zero_padded 2 (day d).

(** A reference reading of [datetime.fromisoformat] reduced to its date:
    the grammar the library documents for Python 3.7 to 3.10,
    [YYYY-MM-DD[*HH[:MM[:SS[.fff[fff]]]][+HH:MM[:SS[.ffffff]]]]].  The
    mapper below is stated over any parser; this one evaluates examples. *)
Module IsoParser.

Definition digit (c : ascii) : option nat :=
  let n := nat_of_ascii c in
  if ((48 <=? n)%nat && (n <=? 57)%nat)%bool then Some (n - 48) else None.

Definition two_digits (l : list ascii) : option (nat * list ascii) :=
  match l with
  | a :: b :: r =>
      match digit a, digit b with
      | Some x, Some y => Some (10 * x + y, r)
      | _, _ => None
      end
  | _ => None
  end.

Definition four_digits (l : list ascii) : option (nat * list ascii) :=
  match two_digits l with
  | Some (hi, r) =>
      match two_digits r with
      | Some (lo, r') => Some (100 * hi + lo, r')
      | None => None
      end
  | None => None
  end.

Definition is_leap (y : nat) : bool :=
  ((y mod 4 =? 0)%nat && (negb (y mod 100 =? 0)%nat || (y mod 400 =? 0)%nat))%bool.

Definition days_in_month (y m : nat) : nat :=
  match m with
  | 2 => if is_leap y then 29 else 28
  | 4 | 6 | 9 | 11 => 30
  | _ => 31
  end.

Definition valid_date (y m d : nat) : bool :=
  ((1 <=? y)%nat && (1 <=? m)%nat && (m <=? 12)%nat && (1 <=? d)%nat
   && (d <=? days_in_month y m)%nat)%bool.

Definition all_digits (l : list ascii) : bool :=
  forallb (fun c => match digit c with Some _ => true | None => false end) l.

(** [HH[:MM[:SS[.fff[fff]]]]], the whole of [l]. *)
Definition clock_ok (need_minutes : bool) (l : list ascii) : bool :=
  match two_digits l with
  | Some (h, []) => (negb need_minutes && (h <? 24)%nat)%bool
  | Some (h, ":"%char :: r) =>
      match two_digits r with
      | Some (m, []) => ((h <? 24)%nat && (m <? 60)%nat)%bool
      | Some (m, ":"%char :: r') =>
          match two_digits r' with
          | Some (s, []) => ((h <? 24)%nat && (m <? 60)%nat && (s <? 60)%nat)%bool
          | Some (s, "."%char :: f) =>
              ((h <? 24)%nat && (m <? 60)%nat && (s <? 60)%nat && all_digits f
               && ((List.length f =? 3)%nat || (List.length f =? 6)%nat))%bool
          | _ => false
          end
      | _ => false
      end
  | _ => false
  end.

(** Split a time at its zone sign, if any. *)
Fixpoint split_zone (l : list ascii) : list ascii * option (list ascii) :=
  match l with
  | [] => ([], None)
  | c :: r =>
      if (Ascii.eqb c "+" || Ascii.eqb c "-")%bool then ([], Some r)
      else let '(t, z) := split_zone r in (c :: t, z)
  end.

Definition time_ok (l : list ascii) : bool :=
  match split_zone l with
  | (t, None) => clock_ok false t
  | (t, Some z) => (clock_ok false t && clock_ok true z)%bool
  end.

Definition fromisoformat (s : string) : option date :=
  match four_digits (list_ascii_of_string s) with
  | Some (y, "-"%char :: r) =>
      match two_digits r with
      | Some (m, "-"%char :: r') =>
          match two_digits r' with
          | Some (d, rest) =>
              if valid_date y m d then
                match rest with
                | [] => Some (mkdate y m d)
                | _sep :: t => if time_ok t then Some (mkdate y m d) else None
                end
              else None
          | None => None
          end
      | _ => None
      end
  | _ => None
  end.

End IsoParser.

(** ** Hashable values and the set of known identifiers *)

(** What a Python set compares: [None], numbers ([True] is [1] and [False]
    is [0]) and strings.  Lists and dicts cannot be hashed. *)
Inductive key : Type :=
| KNone
| KNum (n : Z)
| KStr (s : string).

Definition key_eqb (a b : key) : bool :=
  match a, b with
  | KNone, KNone => true
  | KNum m, KNum n => (m =? n)%Z
  | KStr s, KStr t => (s =? t)
  | _, _ => false
  end.

Definition hash_key (v : value) : result key :=
  match v with
  | VNone => Ok KNone
  | VBool b => Ok (KNum (if b then 1 else 0))
  | VInt n => Ok (KNum n)
  | VStr s => Ok (KStr s)
  | VList _ | VDict _ => Raise TypeError
  end.

Definition key_in (k : key) (s : list key) : bool := existsb (key_eqb k) s.

Definition key_add (k : key) (s : list key) : list key :=
  if key_in k s then s else s ++ [k].

(** [v in s] / [v not in s] hash [v] first. *)
Definition py_in (v : value) (s : list key) : result bool :=
  k <- hash_key v ;; Ok (key_in k s).

(** ** The store *)

Definition row : Type := list value.

(** The worksheet: its header line, the data lines below it as they were
    written, and how the service hands a written cell back when the sheet
    is read (the sheet shows the cell as text and [get_all_records] turns
    text that reads as a number into that number). *)
Record sheet : Type := mksheet {
  header : list string;
  rows : list row;
  reads_as : value -> value
}.

(** [sheet.get_all_records()]: one dict per data line, keyed by the header,
    each cell as it reads back; a short line reads as empty cells. *)
Definition record_of (reading : value -> value) (hdr : list string) (r : row)
  : value :=
  VDict (combine hdr (map reading r
                      ++ repeat (VStr "") (List.length hdr - List.length r))).

Definition get_all_records (sh : sheet) : list value :=
  map (record_of (reads_as sh) (header sh)) (rows sh).

(** [sheet.append_rows(batch, value_input_option="RAW")] when it succeeds. *)
Definition append_rows (sh : sheet) (batch : list row) : sheet :=
  mksheet (header sh) (rows sh ++ batch) (reads_as sh).

(** *** How gspread reads a cell back *)

(** A reference reading of the round trip of one cell: the text the sheet
    shows for a value written [RAW], then gspread's [numericise].  Text
    with an underscore is kept; text that [int] parses (blanks around it,
    an optional sign, decimal digits) becomes that number; other text is
    kept.  Text that only [float] parses stays text here, the values having
    no fractional numbers; the properties below are stated for any reading,
    and this one evaluates examples. *)
Module Gspread.

Definition is_space (c : ascii) : bool :=
  let n := nat_of_ascii c in
  (((9 <=? n)%nat && (n <=? 13)%nat) || ((28 <=? n)%nat && (n <=? 32)%nat))%bool.

Fixpoint lstrip (l : list ascii) : list ascii :=
  match l with
  | [] => []
  | c :: r => if is_space c then lstrip r else l
  end.

Definition strip (l : list ascii) : list ascii :=
  rev (lstrip (rev (lstrip l))).

Fixpoint digits_value (l : list ascii) (acc : Z) : option Z :=
  match l with
  | [] => Some acc
  | c :: r =>
      match IsoParser.digit c with
      | Some d => digits_value r (10 * acc + Z.of_nat d)%Z
      | None => None
      end
  end.

Definition unsigned_value (l : list ascii) : option Z :=
  match l with
  | [] => None
  | _ => digits_value l 0%Z
  end.

(** [int(s)] on text. *)
Definition int_of_text (s : string) : option Z :=
  match strip (list_ascii_of_string s) with
  | "-"%char :: ds => option_map Z.opp (unsigned_value ds)
  | "+"%char :: ds => unsigned_value ds
  | ds => unsigned_value ds
  end.

Definition numericise (s : string) : value :=
  if existsb (Ascii.eqb "_") (list_ascii_of_string s) then VStr s
  else match int_of_text s with
       | Some n => VInt n
       | None => VStr s
       end.

(** A written cell, read back.  [None] leaves the cell empty; a boolean
    shows as [TRUE] or [FALSE]; no cell holds a list or an object (the
    service refuses such an append). *)
Definition reads (v : value) : value :=
  match v with
  | VNone => VStr ""
  | VBool b => VStr (if b then "TRUE" else "FALSE")
  | VInt n => VInt n
  | VStr s => numericise s
  | VList _ | VDict _ => v
  end.

End Gspread.

(** ** The world of one run *)

Inductive response : Type :=
| Failed                (* [requests.get], [raise_for_status] or [json] raised *)
| Json (body : value).  (* the decoded body of a 2xx answer *)

Record world : Type := mkworld {
  SERVICE_ACCOUNT_JSON : option string;  (* the environment variable *)
  sheet_opens : value -> bool;           (* authorize and open the worksheet *)
  records_readable : bool;               (* [get_all_records] answers *)
  requests_get : nat -> response;        (* the API, by [from=] offset *)
  now : nat -> string;                   (* the clock at the n-th row built *)
  append_accepted : bool                 (* [append_rows] answers *)
}.

(** What a run does to the outside, in order. *)
Inductive event : Type :=
| EvRecords
| EvGet (offset : nat)
| EvAppend (batch : list row).

Definition page_size : nat := 10.
Definition max_articles : nat := 50.

(** [range(0, stop, step)] *)
Definition py_range (stop step : nat) : list nat :=
  map (fun i => i * step) (seq 0 ((stop + step - 1) / step)).

(** The two accumulators of [fetch_and_upload]. *)
Record state : Type := mkstate {
  batch_to_append : list row;
  articles_checked : nat
}.

Inductive outcome : Type :=
| InitFailed (e : exn)       (* logged, then [return] *)
| Uncaught (e : exn)         (* an exception leaves [fetch_and_upload] *)
| Finished (st : state).     (* the last log line is reached *)

Record run_result : Type := mkrun {
  run_outcome : outcome;
  run_events : list event;
  run_sheet : sheet
}.

Section Pipeline.

(** The two library parsers the script calls. *)
Variable fromisoformat : string -> option date.
Variable json_loads : string -> option value.

(** ** Record Mapper *)

(** Line 68, inside the [try]. *)
Definition parse_date (date_str : value) : result string :=
  if truthy date_str then
    match date_str with
    | VStr s =>
        match fromisoformat (replace "Z" "" s) with
        | Some d => Ok (isoformat d)
        | None => Raise ValueError
        end
    | _ => Raise AttributeError
    end
  else Ok "".

(** Lines 66 to 70. *)
Definition publication_date (hit : value) : result string :=
  sort_date <- py_get hit "sortDate" VNone ;;
  date_str <- (if truthy sort_date then Ok sort_date
               else display <- py_get hit "display" (VDict []) ;;
                    py_get display "date" VNone) ;;
  Ok (try_except (parse_date date_str) (fun _ => "")).

Fixpoint labels (byline : list value) : result (list value) :=
  match byline with
  | [] => Ok []
  | item :: rest =>
      l <- py_get item "label" (VStr "") ;;
      ls <- labels rest ;;
      Ok (l :: ls)
  end.

(** Lines 72 to 76. *)
Definition author_field (hit : value) : result string :=
  author <- py_get hit "author" VNone ;;
  let authors := py_or author (VList []) in
  authors <- (if negb (truthy authors) then
                display <- py_get hit "display" (VDict []) ;;
                byline <- py_get display "byline" (VList []) ;;
                match byline with
                | VList items => ls <- labels items ;; Ok (VList ls)
                | _ => Ok (VList [])
                end
              else Ok authors) ;;
  py_join ", " authors.

(** Lines 78 and 79. *)
Definition faculty_field (hit : value) : result string :=
  faculty <- py_get hit "faculty" (VList []) ;;
  if is_list faculty then py_join ", " faculty else Ok "".

(** Line 81. *)
Definition thumbnail_src (hit : value) : result value :=
  display <- py_get hit "display" (VDict []) ;;
  thumbnail <- py_get display "thumbnail" (VDict []) ;;
  py_get thumbnail "src" (VStr "").

(** Lines 81 and 82. *)
Definition image_url_field (hit : value) : result string :=
  thumb <- thumbnail_src hit ;;
  match thumb with
  | VStr s => Ok (if startswith "//" s then ("https:" ++ s)%string else s)
  | _ => Raise AttributeError
  end.

Definition build_article_row (hit : value) (current_timestamp : string)
  : result row :=
  obj_id <- py_get hit "id" VNone ;;
  url <- py_get hit "url" (VStr "") ;;
  date_iso <- publication_date hit ;;
  author_str <- author_field hit ;;
  faculty_str <- faculty_field hit ;;
  image_url <- image_url_field hit ;;
  topic <- py_get hit "topic" (VList []) ;;
  '(allowed_cats, new_cats) <- normalize_categories topic ;;
  title <- py_get hit "title" (VStr "") ;;
  description <- py_get hit "description" (VStr "") ;;
  Ok [ title;
       VStr date_iso;
       VStr author_str;
       VStr faculty_str;
       description;
       url;
       VStr image_url;
       VStr (join_strs ", " allowed_cats);
       VStr (match new_cats with [] => "" | _ => join_strs ", " new_cats end);
       obj_id;
       VStr current_timestamp ].

(** ** Existing-Key Index *)

Fixpoint collect_ids (records : list value) (acc : list key)
  : result (list key) :=
  match records with
  | [] => Ok acc
  | r :: rest =>
      oid <- py_get r "Object ID" VNone ;;
      if truthy oid
      then k <- hash_key oid ;; collect_ids rest (key_add k acc)
      else collect_ids rest acc
  end.

Definition get_existing_object_ids (w : world) (sh : sheet)
  : result (list key) :=
  if records_readable w then collect_ids (get_all_records sh) []
  else Raise APIError.

(** ** Pipeline Orchestrator *)

Definition init_sheet (w : world) : result unit :=
  match SERVICE_ACCOUNT_JSON w with
  | None => Raise ValueError
  | Some s =>
      if s =? "" then Raise ValueError
      else match json_loads s with
           | None => Raise ValueError
           | Some info => if sheet_opens w info then Ok tt else Raise APIError
           end
  end.

(** Lines 129 to 131: the body of [for hit in hits]. *)
Definition visit_hit (w : world) (existing_ids : list key) (st : state)
  (hit : value) : result state :=
  id <- py_get hit "id" VNone ;;
  known <- py_in id existing_ids ;;
  if negb known then
    r <- build_article_row hit (now w (List.length (batch_to_append st))) ;;
    Ok (mkstate (batch_to_append st ++ [r]) (articles_checked st + 1))
  else Ok st.

Fixpoint visit_hits (w : world) (existing_ids : list key) (hits : list value)
  (st : state) : result state :=
  match hits with
  | [] => Ok st
  | hit :: rest =>
      st' <- visit_hit w existing_ids st hit ;;
      visit_hits w existing_ids rest st'
  end.

(** Lines 123 to 135 on a decoded body: the new state, and whether the
    page loop breaks. *)
Definition visit_page (w : world) (existing_ids : list key) (body : value)
  (st : state) : result (state * bool) :=
  hits <- py_get body "hits" (VList []) ;;
  if negb (truthy hits) then Ok (st, true)
  else
    items <- py_iter hits ;;
    st' <- visit_hits w existing_ids items st ;;
    Ok (st', max_articles <=? articles_checked st')%nat.

(** Lines 116 to 139: the page loop, with the requests it sends. *)
Fixpoint paging (w : world) (existing_ids : list key) (offsets : list nat)
  (st : state) : list event * result state :=
  match offsets with
  | [] => ([], Ok st)
  | offset :: rest =>
      match requests_get w offset with
      | Failed => ([EvGet offset], Ok st)
      | Json body =>
          match visit_page w existing_ids body st with
          | Raise e => ([EvGet offset], Raise e)
          | Ok (st', true) => ([EvGet offset], Ok st')
          | Ok (st', false) =>
              let '(evs, r) := paging w existing_ids rest st' in
              (EvGet offset :: evs, r)
          end
      end
  end.

(** Lines 141 to 150. *)
Definition upload (w : world) (sh : sheet) (st : state)
  : list event * sheet :=
  match batch_to_append st with
  | [] => ([], sh)
  | batch =>
      ([EvAppend batch],
       if append_accepted w then append_rows sh batch else sh)
  end.

Definition fetch_and_upload (w : world) (sh : sheet) : run_result :=
  match init_sheet w with
  | Raise e => mkrun (InitFailed e) [] sh
  | Ok _ =>
      match get_existing_object_ids w sh with
      | Raise e => mkrun (Uncaught e) [EvRecords] sh
      | Ok existing_ids =>
          match paging w existing_ids (py_range max_articles page_size)
                  (mkstate [] 0) with
          | (evs, Raise e) => mkrun (Uncaught e) (EvRecords :: evs) sh
          | (evs, Ok st) =>
              let '(up, sh') := upload w sh st in
              mkrun (Finished st) (EvRecords :: evs ++ up) sh'
          end
      end
  end.

End Pipeline.

Arguments parse_date fromisoformat date_str : assert.
Arguments publication_date fromisoformat hit : assert.
Arguments build_article_row fromisoformat hit current_timestamp : assert.
Arguments init_sheet json_loads w : assert.
Arguments fetch_and_upload fromisoformat json_loads w sh : assert.

(** ** What the data model promises of a hit *)

(** The fields of a hit that is a JSON object. *)
Definition field (hit : value) (k : string) : option value :=
  match hit with
  | VDict d => assoc k d
  | _ => None
  end.

Definition absent_or (p : value -> bool) (o : option value) : bool :=
  match o with
  | None => true
  | Some v => p v
  end.

Definition is_dict (v : value) : bool :=
  match v with VDict _ => true | _ => false end.

Definition str_list (v : value) : bool :=
  match v with VList l => forallb is_str l | _ => false end.

Definition byline_ok (v : value) : bool :=
  match v with
  | VList l => forallb (fun item => absent_or is_str (field item "label")
                                   && is_dict item)%bool l
  | _ => true
  end.

Definition thumbnail_ok (v : value) : bool :=
  (is_dict v && absent_or is_str (field v "src"))%bool.

Definition display_ok (v : value) : bool :=
  (is_dict v && absent_or byline_ok (field v "byline")
   && absent_or thumbnail_ok (field v "thumbnail"))%bool.

(** A hit shaped as the data model says: an object whose nested display is
    an object, whose author and faculty are lists of strings, whose topic is
    a list, and whose thumbnail source is a string, each where present. *)
Definition well_formed_hit (hit : value) : bool :=
  (is_dict hit
   && absent_or display_ok (field hit "display")
   && absent_or (fun a => negb (truthy a) || str_list a) (field hit "author")
   && absent_or (fun f => negb (is_list f) || str_list f) (field hit "faculty")
   && absent_or (fun t => negb (truthy t) || is_list t) (field hit "topic"))%bool.

(** The identifier of a hit as the index compares it. *)
Definition hit_key (hit : value) : option key :=
  match hit with
  | VDict d =>
      match hash_key (match assoc "id" d with Some v => v | None => VNone end) with
      | Ok k => Some k
      | Raise _ => None
      end
  | _ => None
  end.

(** The Object ID cell of an output row. *)
Definition object_id (r : row) : value := nth 9 r VNone.

Definition row_key (r : row) : option key :=
  match hash_key (object_id r) with
  | Ok k => Some k
  | Raise _ => None
  end.

(** ** The claims' vocabulary *)

(** *** Category Normalizer, in the words of the specification *)

Definition valid_category (t : string) : bool :=
  in_strs t all_valid_categories.

Fixpoint discard_non_strings (l : list value) : list string :=
  match l with
  | [] => []
  | VStr s :: rest => s :: discard_non_strings rest
  | _ :: rest => discard_non_strings rest
  end.

(** [None] is an absent topic list. *)
Definition normalizer_spec (topics : option (list value))
  : list string * list string :=
  match topics with
  | None | Some [] => (["Not Defined"], [])
  | Some l =>
      let '(allowed, unknown) :=
        partition valid_category (discard_non_strings l) in
      (match allowed with [] => ["Not Defined"] | _ => allowed end, unknown)
  end.

Definition topics_value (topics : option (list value)) : value :=
  match topics with
  | None => VNone
  | Some l => VList l
  end.

(** *** Nested fields *)

(** Reading a nested field through objects: found, missing at some level,
    or stopped by something that is not an object. *)
Inductive reading : Type :=
| Present (v : value)
| Absent
| Blocked.

Fixpoint read_path (path : list string) (v : value) : reading :=
  match path with
  | [] => Present v
  | k :: ks =>
      match v with
      | VDict d =>
          match assoc k d with
          | Some v' => read_path ks v'
          | None => Absent
          end
      | _ => Blocked
      end
  end.

(** The Image URL rule of the specification; [None] where it says
    nothing (a source that is not a string). *)
Definition image_url_spec (src : reading) : option string :=
  match src with
  | Present (VStr s) =>
      Some (if startswith "//" s then ("https:" ++ s)%string else s)
  | Absent => Some ""
  | _ => None
  end.

(** *** Publication Date *)

Fixpoint delete_char (c : ascii) (s : string) : string :=
  match s with
  | EmptyString => EmptyString
  | String a s' =>
      if Ascii.eqb a c then delete_char c s' else String a (delete_char c s')
  end.

Fixpoint strip_trailing (c : ascii) (s : string) : string :=
  match s with
  | EmptyString => EmptyString
  | String a EmptyString => if Ascii.eqb a c then EmptyString else s
  | String a s' => String a (strip_trailing c s')
  end.

(** The date value the mapper settles on: the primary field, else the
    nested one. *)
Definition date_value (hit : value) : value :=
  match field hit "sortDate" with
  | Some v => if truthy v then v else
                match read_path ["display"; "date"] hit with
                | Present d => d
                | _ => VNone
                end
  | None => match read_path ["display"; "date"] hit with
            | Present d => d
            | _ => VNone
            end
  end.

(** The field as a function of the date value, for a way [clean] of
    preparing the string before it is parsed. *)
Definition date_field (parse : string -> option date)
  (clean : string -> string) (v : value) : string :=
  if truthy v then
    match v with
    | VStr s => match parse (clean s) with
                | Some d => isoformat d
                | None => ""
                end
    | _ => ""
    end
  else "".

(** *** Store connection *)

Definition credential_missing (w : world) : bool :=
  match SERVICE_ACCOUNT_JSON w with
  | None => true
  | Some s => s =? ""
  end.

Definition credential_invalid (json_loads : string -> option value)
  (w : world) : bool :=
  match SERVICE_ACCOUNT_JSON w with
  | Some s => match json_loads s with None => true | Some _ => false end
  | None => false
  end.

Definition worksheet_unreachable (json_loads : string -> option value)
  (w : world) : bool :=
  match SERVICE_ACCOUNT_JSON w with
  | Some s => match json_loads s with
              | Some info => negb (sheet_opens w info)
              | None => false
              end
  | None => false
  end.

Definition connection_fails (json_loads : string -> option value)
  (w : world) : bool :=
  (credential_missing w || credential_invalid json_loads w
   || worksheet_unreachable json_loads w)%bool.

(** ** Sample hits *)

Definition hit_dated : value :=
  VDict [("id", VStr "wk-1"); ("title", VStr "On pricing");
         ("sortDate", VStr "2023-05-01T00:00:00Z");
         ("topic", VList [VStr "Strategy"; VStr "Robots"]);
         ("display",
          VDict [("thumbnail", VDict [("src", VStr "//img.example.com/x.jpg")]);
                 ("byline", VList [VDict [("label", VStr "A. Author")]])])].

Definition hit_absolute_thumbnail : value :=
  VDict [("id", VStr "wk-2");
         ("display",
          VDict [("date", VStr "not-a-date");
                 ("thumbnail",
                  VDict [("src", VStr "https://already-absolute/x.jpg")])])].

Definition hit_bare : value := VDict [("title", VStr "Untitled")].

Definition hit_inner_Z : value :=
  VDict [("id", VStr "wk-3"); ("sortDate", VStr "Z2023-05-01")].

(** *** The orchestrator *)

(** The hits a response carries into the hit loop. *)
Definition page_hits (r : response) : list value :=
  match r with
  | Json body =>
      match (hits <- py_get body "hits" (VList []) ;; py_iter hits) with
      | Ok l => l
      | Raise _ => []
      end
  | Failed => []
  end.

(** The hits the API holds for the pages of a run. *)
Definition served_hits (w : world) (offsets : list nat) : list value :=
  flat_map (fun offset => page_hits (requests_get w offset)) offsets.

(** The count and the batch move together. *)
Definition balanced (st : state) : Prop :=
  List.length (batch_to_append st) = articles_checked st.

(** A truthy key is the key of a truthy value. *)
Definition key_truthy (k : key) : bool :=
  match k with
  | KNone => false
  | KNum n => negb (n =? 0)%Z
  | KStr s => negb (s =? "")
  end.

(** The identifier of a hit is present and truthy. *)
Definition id_truthy (hit : value) : bool :=
  match field hit "id" with
  | Some v => truthy v
  | None => false
  end.

(** The identifier of a hit is absent or falsy. *)
Definition id_falsy (hit : value) : bool :=
  match field hit "id" with
  | Some v => negb (truthy v)
  | None => true
  end.

(** The identifier of a hit is absent, null, or a falsy string, number or
    boolean: falsy, and of a kind a set can hold. *)
Definition id_falsy_scalar (hit : value) : bool :=
  match field hit "id" with
  | Some (VList _) | Some (VDict _) => false
  | Some v => negb (truthy v)
  | None => true
  end.

(** A written value reads back alike: a truthy one with the same key, a
    falsy one as something falsy. *)
Definition reads_alike (reading : value -> value) (v : value) : bool :=
  if truthy v then
    match hash_key v, hash_key (reading v) with
    | Ok k, Ok k' => key_eqb k k'
    | _, _ => false
    end
  else negb (truthy (reading v)).

(** The identifier of a hit reads back alike once stored. *)
Definition id_reads_alike (reading : value -> value) (hit : value) : bool :=
  match hit with
  | VDict d =>
      reads_alike reading
        (match assoc "id" d with Some v => v | None => VNone end)
  | _ => false
  end.

(** The identifier of a hit is truthy and is found again under the same
    key when the store is read. *)
Definition id_survives (reading : value -> value) (hit : value) : bool :=
  (id_truthy hit && id_reads_alike reading hit)%bool.

(** The same world, its store accepting or refusing the append. *)
Definition with_append (accepted : bool) (w : world) : world :=
  mkworld (SERVICE_ACCOUNT_JSON w) (sheet_opens w) (records_readable w)
          (requests_get w) (now w) accepted.

Section PagesThrough.

Variable fromisoformat : string -> option date.
Variable w : world.
Variable existing_ids : list key.

(** [pages_through offsets st st']: every page of [offsets] is fetched,
    visited without an exception and without a break, taking the
    accumulators from [st] to [st']. *)
Inductive pages_through : list nat -> state -> state -> Prop :=
| through_nil (st : state) : pages_through [] st st
| through_cons (offset : nat) (rest : list nat) (body : value)
    (st st1 st2 : state) :
    requests_get w offset = Json body ->
    visit_page fromisoformat w existing_ids body st = Ok (st1, false) ->
    pages_through rest st1 st2 ->
    pages_through (offset :: rest) st st2.

End PagesThrough.

(** ** Sample worlds and stores *)

Definition empty_store : sheet := mksheet COLUMNS [] Gspread.reads.

Definition sample_credentials : string := "{}".

Definition sample_json_loads (s : string) : option value :=
  if s =? "{}" then Some (VDict []) else None.

Definition clock (n : nat) : string :=
  ("2024-01-02T03:04:0" ++ String (digit_char n) "")%string.

Definition page_of (hits : list value) : response :=
  Json (VDict [("hits", VList hits)]).

Definition world_of (api : nat -> response) : world :=
  mkworld (Some sample_credentials) (fun _ => true) true api clock true.

(** One page of three hits, then nothing. *)
Definition api_one_page (offset : nat) : response :=
  match offset with
  | 0 => page_of [hit_dated; hit_absolute_thumbnail; hit_inner_Z]
  | _ => page_of []
  end.

(** The same article on two successive pages. *)
Definition api_overlap (offset : nat) : response :=
  match offset with
  | 0 => page_of [hit_dated]
  | 10 => page_of [hit_dated]
  | _ => page_of []
  end.

(** A hit without an identifier. *)
Definition api_anonymous (offset : nat) : response :=
  match offset with
  | 0 => page_of [hit_bare]
  | _ => page_of []
  end.

(** The second page cannot be fetched. *)
Definition api_second_page_down (offset : nat) : response :=
  match offset with
  | 0 => page_of [hit_dated; hit_absolute_thumbnail]
  | _ => Failed
  end.

(** No credentials in the environment. *)
Definition world_without_credentials : world :=
  mkworld None (fun _ => true) true api_one_page clock true.

(** A store that already holds the article [wk-2]. *)
Definition store_with_wk2 : sheet :=
  mksheet COLUMNS
    [[ VStr ""; VStr ""; VStr ""; VStr ""; VStr ""; VStr "";
       VStr "https://already-absolute/x.jpg"; VStr "Not Defined"; VStr "";
       VStr "wk-2"; VStr "2023-12-31T00:00:00" ]]
    Gspread.reads.

(** Runs with the reference date parser and the sample credentials. *)
Definition sample_run (w : world) (sh : sheet) : run_result :=
  fetch_and_upload IsoParser.fromisoformat sample_json_loads w sh.

(** The accumulators a run finished with. *)
Definition final_state (r : run_result) : state :=
  match run_outcome r with
  | Finished st => st
  | _ => mkstate [] 0
  end.

(** ** Further vocabulary *)

(** The label a byline entry contributes to the Author cell. *)
Definition label_of (item : value) : string :=
  match field item "label" with
  | Some (VStr s) => s
  | _ => ""
  end.

(** The keys of the truthy, hashable Object IDs of store records, in the
    order of the records. *)
Definition stored_keys (records : list value) : list key :=
  flat_map (fun r => match py_get r "Object ID" VNone with
                     | Ok oid =>
                         if truthy oid
                         then match hash_key oid with
                              | Ok k => [k]
                              | Raise _ => []
                              end
                         else []
                     | Raise _ => []
                     end) records.

(** An identifier that is not in the index. *)
Definition unknown_to (idx : list key) (k : option key) : bool :=
  match k with
  | Some k => negb (key_in k idx)
  | None => false
  end.

(** The second page holds a hit whose display is [null]. *)
Definition hit_null_display : value :=
  VDict [("id", VStr "wk-9"); ("display", VNone)].

Definition api_broken_second_page (offset : nat) : response :=
  match offset with
  | 0 => page_of [hit_dated]
  | 10 => page_of [hit_null_display]
  | _ => page_of []
  end.

(** A store whose header has no Object ID column. *)
Definition store_without_id_column : sheet :=
  mksheet ["Title"; "Summary"] [[VStr "On pricing"; VStr "wk-1"]]
          Gspread.reads.

(** A world whose store refuses the append. *)
Definition world_rejecting_append : world :=
  mkworld (Some sample_credentials) (fun _ => true) true api_one_page clock
          false.

(** A first page of sixty hits, more than a page should hold. *)
Definition numbered_hit (i : nat) : value :=
  VDict [("id", VInt (Z.of_nat i))].

Definition api_oversized_page (offset : nat) : response :=
  match offset with
  | 0 => page_of (map numbered_hit (seq 1 60))
  | _ => page_of [hit_dated]
  end.

Definition hit_two_dates : value :=
  VDict [("sortDate", VStr "2024-02-29"); ("display", VNone)].

(** A hit whose identifier is an empty list. *)
Definition hit_list_id : value := VDict [("id", VList [])].

Definition api_list_id (offset : nat) : response :=
  match offset with
  | 0 => page_of [hit_list_id]
  | _ => page_of []
  end.

(** A hit whose identifier is text that reads as a number. *)
Definition hit_numeric_id : value := VDict [("id", VStr "12345")].

Definition api_numeric_id (offset : nat) : response :=
  match offset with
  | 0 => page_of [hit_numeric_id]
  | _ => page_of []
  end.

(** * Properties *)

(** ** Sanity checks of the embedding *)

Example fromisoformat_midnight :
  IsoParser.fromisoformat "2023-05-01T00:00:00" = Some (mkdate 2023 5 1).
Proof. reflexivity. Qed.


Example fromisoformat_rejects_words :
  IsoParser.fromisoformat "not-a-date" = None.
Proof. reflexivity. Qed.


Example isoformat_pads : isoformat (mkdate 987 5 1) = "0987-05-01".
Proof. reflexivity. Qed.


Example offsets_of_a_run : py_range max_articles page_size = [0; 10; 20; 30; 40].
Proof. reflexivity. Qed.


Example replace_drops_zone_marker :
  replace "Z" "" "2023-05-01T00:00:00Z" = "2023-05-01T00:00:00".
Proof. reflexivity. Qed.


Example join_of_characters : py_join ", " (VStr "ab") = Ok "a, b".
Proof. reflexivity. Qed.

(** ** Category Normalizer *)

Lemma strs_of_discards (l : list value) : strs_of l = discard_non_strings l.
Proof.
  induction l as [|t l IH]; [reflexivity|].
  unfold strs_of in *; cbn [flat_map discard_non_strings].
  destruct t; cbn; now rewrite IH.
Qed.

Lemma normalizer_spec_allowed_nonempty (topics : option (list value)) :
  fst (normalizer_spec topics) <> [].
Proof.
  destruct topics as [[|t l]|]; cbn [normalizer_spec fst]; try discriminate.
  destruct (partition valid_category (discard_non_strings (t :: l)))
    as [[|a allowed] unknown]; cbn; discriminate.
Qed.

(** C4. On an absent ([None]) or empty topic list the normalizer returns
    ([["Not Defined"]], [[]]); on any other list it discards the entries
    that are not strings, partitions the remaining strings in input order
    into members of the allow-list and the rest, and replaces an empty
    allowed part by [["Not Defined"]].  The allowed part is never empty. *)
Theorem normalize_categories_refines_spec (topics : option (list value)) :
  normalize_categories (topics_value topics) = Ok (normalizer_spec topics)
  /\ fst (normalizer_spec topics) <> [].
Proof.
  split; [|apply normalizer_spec_allowed_nonempty].
  destruct topics as [[|t l]|]; try reflexivity.
  unfold normalize_categories, normalizer_spec.
  cbn [topics_value truthy negb py_iter bind].
  rewrite strs_of_discards, partition_as_filter.
  reflexivity.
Qed.

Example normalize_mixed_topics :
  normalize_categories
    (VList [VStr "Strategy"; VInt 7; VStr "Robots"; VStr "Accounting"])
  = Ok (["Strategy"; "Accounting"], ["Robots"]).
Proof. reflexivity. Qed.

Example normalize_only_unknown :
  normalize_categories (VList [VStr "Robots"]) = Ok (["Not Defined"], ["Robots"]).
Proof. reflexivity. Qed.

(** ** The error monad *)

Lemma bind_Ok {A B : Type} (m : result A) (k : A -> result B) (b : B) :
  bind m k = Ok b -> exists a, m = Ok a /\ k a = Ok b.
Proof. destruct m as [a|e]; cbn; [eauto | discriminate]. Qed.

Lemma bind_Raise {A B : Type} (m : result A) (k : A -> result B) (e : exn) :
  bind m k = Raise e -> m = Raise e \/ exists a, m = Ok a /\ k a = Raise e.
Proof. destruct m as [a|e']; cbn; [eauto | intros [= ->]; now left]. Qed.

(** Peel the successful prefix of a chain of binds in [H]. *)
Ltac bind_inv H :=
  repeat match type of H with
    | bind ?m ?k = Ok _ =>
        let a := fresh "a" in
        let Ha := fresh "E" in
        apply bind_Ok in H; destruct H as (a & Ha & H)
    end.

Lemma py_get_dict (o : value) (k : string) (dflt v : value) :
  py_get o k dflt = Ok v -> is_dict o = true.
Proof. destruct o; cbn; congruence. Qed.

Lemma py_get_field (o : value) (k : string) (dflt : value) :
  is_dict o = true ->
  py_get o k dflt = Ok (match field o k with Some v => v | None => dflt end).
Proof. destruct o; cbn; congruence. Qed.

(** ** Record Mapper *)

Section MapperFacts.

Variable fromisoformat : string -> option date.

(** The cells of a row that are copied or computed one by one. *)
Lemma build_article_row_cells (hit : value) (ts : string) (r : row) :
  build_article_row fromisoformat hit ts = Ok r ->
  exists title date_iso author faculty description url image cats news obj_id,
    r = [title; VStr date_iso; VStr author; VStr faculty; description; url;
         VStr image; VStr cats; VStr news; obj_id; VStr ts]
    /\ py_get hit "id" VNone = Ok obj_id
    /\ publication_date fromisoformat hit = Ok date_iso
    /\ image_url_field hit = Ok image.
Proof.
  unfold build_article_row. intros H.
  bind_inv H. destruct a6 as [allowed news]. bind_inv H. injection H as <-.
  repeat eexists; eassumption.
Qed.

Lemma build_article_row_length (hit : value) (ts : string) (r : row) :
  build_article_row fromisoformat hit ts = Ok r -> List.length r = List.length COLUMNS.
Proof.
  intros H. apply build_article_row_cells in H.
  destruct H as (? & ? & ? & ? & ? & ? & ? & ? & ? & ? & -> & _). reflexivity.
Qed.

Lemma build_article_row_object_id (hit : value) (ts : string) (r : row) :
  build_article_row fromisoformat hit ts = Ok r -> py_get hit "id" VNone = Ok (object_id r).
Proof.
  intros H. apply build_article_row_cells in H.
  destruct H as (? & ? & ? & ? & ? & ? & ? & ? & ? & ? & -> & H & _). exact H.
Qed.

(** C8. Where the nested thumbnail source is a string, the Image URL is
    that string with ["https:"] put in front when it starts with ["//"] and
    the string itself otherwise; where the source is absent, the Image URL
    is the empty string.  It is the seventh cell of the row. *)
Theorem image_url_follows_spec (hit : value) (u : string) :
  image_url_spec (read_path ["display"; "thumbnail"; "src"] hit) = Some u ->
  image_url_field hit = Ok u
  /\ forall ts r, build_article_row fromisoformat hit ts = Ok r ->
                  nth_error r 6 = Some (VStr u).
Proof.
  intros H.
  assert (Hu : image_url_field hit = Ok u).
  { unfold image_url_field, thumbnail_src.
    destruct hit as [| | | | |d]; try discriminate H.
    cbn [read_path] in H. cbn [py_get bind].
    destruct (assoc "display" d) as [disp|]; [|now injection H as <-].
    destruct disp as [| | | | |dd]; try discriminate H.
    cbn [py_get bind].
    destruct (assoc "thumbnail" dd) as [th|]; [|now injection H as <-].
    destruct th as [| | | | |td]; try discriminate H.
    cbn [py_get bind].
    destruct (assoc "src" td) as [src|]; [|now injection H as <-].
    destruct src; try discriminate H. now injection H as <-. }
  split; [exact Hu|].
  intros ts r Hr. apply build_article_row_cells in Hr.
  destruct Hr as (? & ? & ? & ? & ? & ? & image & ? & ? & ? & -> & _ & _ & Hi).
  rewrite Hu in Hi. injection Hi as <-. reflexivity.
Qed.

(** *** The mapper returns on every well-formed hit *)

Lemma all_strs_total (l : list value) :
  forallb is_str l = true -> exists ss, all_strs l = Ok ss.
Proof.
  induction l as [|v l IH]; cbn; [eauto|].
  destruct v; cbn; try discriminate. intros H.
  destruct (IH H) as [ss ->]. cbn. eauto.
Qed.

Lemma py_join_total (sep : string) (l : list value) :
  forallb is_str l = true -> exists s, py_join sep (VList l) = Ok s.
Proof.
  intros H. unfold py_join. cbn.
  destruct (all_strs_total l H) as [ss ->]. cbn. eauto.
Qed.

Lemma labels_total (items : list value) :
  forallb (fun item => absent_or is_str (field item "label") && is_dict item)%bool
          items = true ->
  exists ls, labels items = Ok ls /\ forallb is_str ls = true.
Proof.
  induction items as [|item items IH]; cbn; [eauto|].
  intros H. apply andb_prop in H as [Hi H]. apply andb_prop in Hi as [Hl Hd].
  destruct item as [| | | | |d]; try discriminate Hd.
  cbn in Hl |- *. destruct (IH H) as (ls & -> & Hls). cbn.
  eexists; split; [reflexivity|]. cbn. rewrite Hls.
  destruct (assoc "label" d); cbn in *; [now rewrite Hl | reflexivity].
Qed.

Lemma publication_date_total (hit : value) :
  is_dict hit = true ->
  absent_or is_dict (field hit "display") = true ->
  exists s, publication_date fromisoformat hit = Ok s.
Proof.
  destruct hit as [| | | | |d]; try discriminate. intros _ Hd.
  unfold publication_date. cbn [py_get bind field] in *.
  destruct (truthy _); cbn [bind]; [eauto|].
  destruct (assoc "display" d) as [disp|]; cbn in Hd |- *; [|eauto].
  destruct disp; try discriminate Hd. cbn. eauto.
Qed.

(** Lines 74 and 75: authors derived from the byline. *)
Lemma byline_authors_total (d : list (string * value)) :
  absent_or display_ok (assoc "display" d) = true ->
  exists ls,
    (display <- py_get (VDict d) "display" (VDict []) ;;
     byline <- py_get display "byline" (VList []) ;;
     match byline with
     | VList items => ls <- labels items ;; Ok (VList ls)
     | _ => Ok (VList [])
     end) = Ok (VList ls)
    /\ forallb is_str ls = true.
Proof.
  intros H. cbn [py_get bind].
  destruct (assoc "display" d) as [disp|]; cbn [absent_or] in H;
    [|exists []; split; reflexivity].
  unfold display_ok in H.
  apply andb_prop in H as [H _]. apply andb_prop in H as [Hd Hb].
  destruct disp as [| | | | |dd]; try discriminate Hd.
  cbn [py_get bind field] in *.
  destruct (assoc "byline" dd) as [b|]; cbn [absent_or] in Hb;
    [|exists []; split; reflexivity].
  destruct b; try (exists []; split; reflexivity).
  cbn [byline_ok] in Hb. destruct (labels_total _ Hb) as (ls & -> & Hls).
  exists ls. split; [reflexivity | exact Hls].
Qed.

Lemma author_field_total (hit : value) :
  well_formed_hit hit = true -> exists s, author_field hit = Ok s.
Proof.
  unfold well_formed_hit. intros H.
  repeat (apply andb_prop in H as [H ?]).
  destruct hit as [| | | | |d]; try discriminate H. clear H.
  cbn [field] in *.
  destruct (byline_authors_total d) as (ls & Els & Hls); [assumption|].
  unfold author_field.
  rewrite (py_get_field (VDict d) "author") by reflexivity. cbn [bind field].
  destruct (assoc "author" d) as [a|] eqn:Ea; cbn [absent_or] in *.
  - unfold py_or. destruct (truthy a) eqn:Ta; cbn [negb orb] in *.
    + rewrite Ta. cbn [negb bind].
      destruct a; try discriminate. cbn [str_list] in *. now apply py_join_total.
    + cbn [truthy negb]. rewrite Els. cbn [bind]. now apply py_join_total.
  - unfold py_or. cbn [truthy negb]. rewrite Els. cbn [bind].
    now apply py_join_total.
Qed.

Lemma faculty_field_total (hit : value) :
  well_formed_hit hit = true -> exists s, faculty_field hit = Ok s.
Proof.
  unfold well_formed_hit. intros H.
  repeat (apply andb_prop in H as [H ?]).
  destruct hit as [| | | | |d]; try discriminate H. clear H.
  unfold faculty_field. cbn [py_get bind field] in *.
  destruct (assoc "faculty" d) as [f|]; cbn [absent_or] in *;
    [|now apply py_join_total].
  destruct f; cbn [is_list negb orb str_list] in *; eauto.
  now apply py_join_total.
Qed.

Lemma image_url_field_total (hit : value) :
  well_formed_hit hit = true -> exists s, image_url_field hit = Ok s.
Proof.
  unfold well_formed_hit. intros H.
  repeat (apply andb_prop in H as [H ?]).
  destruct hit as [| | | | |d]; try discriminate H. clear H.
  unfold image_url_field, thumbnail_src. cbn [py_get bind field] in *.
  destruct (assoc "display" d) as [disp|]; cbn [absent_or] in *;
    [|cbn; eauto].
  unfold display_ok in *.
  repeat match goal with
         | Hx : (_ && _)%bool = true |- _ => apply andb_prop in Hx as [? ?]
         end.
  destruct disp as [| | | | |dd]; try discriminate.
  cbn [py_get bind field] in *.
  destruct (assoc "thumbnail" dd) as [th|]; cbn [absent_or] in *;
    [|cbn; eauto].
  unfold thumbnail_ok in *.
  repeat match goal with
         | Hx : (_ && _)%bool = true |- _ => apply andb_prop in Hx as [? ?]
         end.
  destruct th as [| | | | |td]; try discriminate.
  cbn [py_get bind field] in *.
  destruct (assoc "src" td) as [src|]; cbn [absent_or] in *; [|cbn; eauto].
  destruct src; try discriminate. eauto.
Qed.

Lemma normalize_categories_total (topic : value) :
  (negb (truthy topic) || is_list topic)%bool = true ->
  exists p, normalize_categories topic = Ok p.
Proof.
  unfold normalize_categories. intros H.
  destruct (truthy topic) eqn:T; cbn [negb orb] in *; [|eauto].
  destruct topic; try discriminate H. cbn. eauto.
Qed.

Lemma well_formed_display (hit : value) :
  well_formed_hit hit = true ->
  is_dict hit = true /\ absent_or is_dict (field hit "display") = true.
Proof.
  unfold well_formed_hit. intros H.
  repeat (apply andb_prop in H as [H ?]). split; [exact H|].
  destruct (field hit "display") as [disp|]; [|reflexivity].
  cbn [absent_or] in *. unfold display_ok in *.
  repeat match goal with
         | Hx : (_ && _)%bool = true |- _ => apply andb_prop in Hx as [? ?]
         end.
  assumption.
Qed.

(** On a hit shaped as the data model says, the mapper returns a row. *)
Lemma build_article_row_total (hit : value) (ts : string) :
  well_formed_hit hit = true ->
  exists r, build_article_row fromisoformat hit ts = Ok r.
Proof.
  intros W.
  destruct (well_formed_display hit W) as [Hd Hdisp].
  destruct (publication_date_total hit Hd Hdisp) as [date_iso Edate].
  destruct (author_field_total hit W) as [author Eauthor].
  destruct (faculty_field_total hit W) as [faculty Efaculty].
  destruct (image_url_field_total hit W) as [image Eimage].
  assert (Htopic : exists p, normalize_categories
            (match field hit "topic" with Some v => v | None => VList [] end)
          = Ok p).
  { unfold well_formed_hit in W. apply andb_prop in W as [_ W].
    destruct (field hit "topic") as [t|]; cbn [absent_or] in W.
    - now apply normalize_categories_total.
    - cbn. eauto. }
  destruct Htopic as [[allowed news] Etopic].
  unfold build_article_row.
  rewrite !(py_get_field hit) by exact Hd. cbn [bind].
  rewrite Edate, Eauthor, Efaculty, Eimage. cbn [bind].
  rewrite Etopic. cbn [bind]. eauto.
Qed.

(** *** Publication Date *)

Lemma replace_char_deletes (c : ascii) (s : string) :
  replace (String c "") "" s = delete_char c s.
Proof.
  unfold replace. induction s as [|a s IH]; [reflexivity|].
  cbn [replace_from startswith delete_char String.length Nat.sub].
  rewrite andb_true_r, Ascii.eqb_sym.
  destruct (Ascii.eqb a c); cbn; now rewrite IH.
Qed.

Lemma parse_date_degrades (v : value) :
  try_except (parse_date fromisoformat v) (fun _ => "")
  = date_field fromisoformat (delete_char "Z") v.
Proof.
  unfold parse_date, date_field.
  destruct (truthy v); [|reflexivity].
  destruct v; try reflexivity.
  rewrite replace_char_deletes. now destruct (fromisoformat _).
Qed.

(** C5, amended.  On a hit that is an object whose nested display is absent
    or an object, computing the Publication Date never raises: when a date
    string is present and parses after every ["Z"] in it is removed, the
    field is the date-only ISO string; when the date is absent, is not a
    string or does not parse, the field is the empty string.  It is the
    second cell of the row. *)
Theorem publication_date_never_raises (hit : value) :
  is_dict hit = true ->
  absent_or is_dict (field hit "display") = true ->
  publication_date fromisoformat hit
  = Ok (date_field fromisoformat (delete_char "Z") (date_value hit))
  /\ forall ts r,
       build_article_row fromisoformat hit ts = Ok r ->
       nth_error r 1
       = Some (VStr (date_field fromisoformat (delete_char "Z") (date_value hit))).
Proof.
  intros Hd Hdisp.
  assert (E : publication_date fromisoformat hit
              = Ok (date_field fromisoformat (delete_char "Z") (date_value hit))).
  { destruct hit as [| | | | |d]; try discriminate Hd.
    unfold publication_date, date_value.
    cbn [py_get bind field read_path] in *.
    destruct (assoc "display" d) as [disp|]; cbn [absent_or] in Hdisp;
      [destruct disp as [| | | | |dd]; try discriminate Hdisp|];
      cbn [py_get bind read_path];
      destruct (assoc "sortDate" d) as [sd|]; cbn [truthy bind];
      try destruct (truthy sd); cbn [bind];
      try destruct (assoc "date" dd); cbn [assoc bind];
      now rewrite parse_date_degrades. }
  split; [exact E|].
  intros ts r Hr. apply build_article_row_cells in Hr.
  destruct Hr as (? & date_iso & ? & ? & ? & ? & ? & ? & ? & ? & -> & _ & Hp & _).
  rewrite E in Hp. injection Hp as <-. reflexivity.
Qed.

End MapperFacts.

(** *** The mapper on the sample hits *)

Example row_of_hit_dated :
  build_article_row IsoParser.fromisoformat hit_dated "2024-01-02T03:04:05"
  = Ok [ VStr "On pricing"; VStr "2023-05-01"; VStr "A. Author"; VStr "";
         VStr ""; VStr ""; VStr "https://img.example.com/x.jpg";
         VStr "Strategy"; VStr "Robots"; VStr "wk-1";
         VStr "2024-01-02T03:04:05" ].
Proof. reflexivity. Qed.

Example row_of_hit_bare :
  build_article_row IsoParser.fromisoformat hit_bare "2024-01-02T03:04:05"
  = Ok [ VStr "Untitled"; VStr ""; VStr ""; VStr ""; VStr ""; VStr "";
         VStr ""; VStr "Not Defined"; VStr ""; VNone;
         VStr "2024-01-02T03:04:05" ].
Proof. reflexivity. Qed.

Example image_url_absolute_unchanged :
  image_url_field hit_absolute_thumbnail = Ok "https://already-absolute/x.jpg".
Proof. reflexivity. Qed.

Example date_malformed_is_empty :
  publication_date IsoParser.fromisoformat hit_absolute_thumbnail = Ok "".
Proof. reflexivity. Qed.

Lemma image_url_follows_spec_witness :
  image_url_field hit_dated = Ok "https://img.example.com/x.jpg"
  /\ forall ts r,
       build_article_row IsoParser.fromisoformat hit_dated ts = Ok r ->
       nth_error r 6 = Some (VStr "https://img.example.com/x.jpg").
Proof.
  apply (image_url_follows_spec IsoParser.fromisoformat hit_dated).
  reflexivity.
Defined.

Lemma publication_date_never_raises_witness :
  publication_date IsoParser.fromisoformat hit_dated = Ok "2023-05-01"
  /\ forall ts r,
       build_article_row IsoParser.fromisoformat hit_dated ts = Ok r ->
       nth_error r 1 = Some (VStr "2023-05-01").
Proof.
  apply (publication_date_never_raises IsoParser.fromisoformat hit_dated);
    reflexivity.
Defined.

(** C5 as stated fails: only a trailing ["Z"] stripped, ["Z2023-05-01"] is
    no ISO date and the field would be empty, but the mapper removes the
    leading ["Z"] too and emits the date. *)
Lemma publication_date_strips_every_Z :
  publication_date IsoParser.fromisoformat hit_inner_Z = Ok "2023-05-01"
  /\ publication_date IsoParser.fromisoformat hit_inner_Z
     <> Ok (date_field IsoParser.fromisoformat (strip_trailing "Z")
              (date_value hit_inner_Z)).
Proof. split; [reflexivity | discriminate]. Qed.

(** ** Keys and the Existing-Key Index *)

Lemma key_eqb_eq (a b : key) : key_eqb a b = true <-> a = b.
Proof.
  destruct a, b; cbn; split; try congruence; try discriminate.
  - intros H. apply Z.eqb_eq in H. now subst.
  - intros [= ->]. apply Z.eqb_refl.
  - intros H. apply String.eqb_eq in H. now subst.
  - intros [= ->]. apply String.eqb_refl.
Qed.

Lemma key_in_In (k : key) (s : list key) : key_in k s = true <-> In k s.
Proof.
  unfold key_in. rewrite existsb_exists. split.
  - intros (k' & Hin & E). apply key_eqb_eq in E. now subst.
  - intros Hin. exists k. split; [exact Hin | now apply key_eqb_eq].
Qed.

Lemma key_in_add (k k' : key) (s : list key) :
  key_in k (key_add k' s) = true <-> k = k' \/ key_in k s = true.
Proof.
  unfold key_add. destruct (key_in k' s) eqn:E.
  - split; [now right|]. intros [->|H]; assumption.
  - rewrite !key_in_In, in_app_iff. cbn. intuition congruence.
Qed.

Lemma hash_key_truthy (v : value) (k : key) :
  hash_key v = Ok k -> key_truthy k = truthy v.
Proof.
  destruct v; cbn; intros [= <-]; try reflexivity. now destruct b.
Qed.

(** What the index holds: the keys it started from and the keys of the
    truthy Object IDs of the records. *)
Lemma collect_ids_spec (records : list value) :
  forall acc idx,
    collect_ids records acc = Ok idx ->
    forall k,
      key_in k idx = true <->
      key_in k acc = true
      \/ exists r oid, In r records
                       /\ py_get r "Object ID" VNone = Ok oid
                       /\ truthy oid = true
                       /\ hash_key oid = Ok k.
Proof.
  induction records as [|r records IH]; cbn [collect_ids]; intros acc idx H k.
  - injection H as <-. split; [now left|].
    intros [Hk|(r & oid & [] & _)]. exact Hk.
  - bind_inv H. rename a into oid.
    destruct (truthy oid) eqn:T.
    + bind_inv H. rename a into k'.
      rewrite (IH _ _ H k), key_in_add. split.
      * intros [[->|Hk]|(r' & oid' & Hin & Hrest)].
        -- right. exists r, oid. cbn. auto.
        -- now left.
        -- right. exists r', oid'. cbn. auto.
      * intros [Hk|(r' & oid' & [<-|Hin] & Hg & Ht & Hh)].
        -- left. now right.
        -- left. left. congruence.
        -- right. exists r', oid'. auto.
    + rewrite (IH _ _ H k). split.
      * intros [Hk|(r' & oid' & Hin & Hrest)]; [now left|].
        right. exists r', oid'. cbn. auto.
      * intros [Hk|(r' & oid' & [<-|Hin] & Hg & Ht & Hh)]; [now left| |].
        -- congruence.
        -- right. exists r', oid'. auto.
Qed.

(** The index never holds the key of a falsy value. *)
Lemma collect_ids_truthy (records : list value) (idx : list key) (k : key) :
  collect_ids records [] = Ok idx -> key_in k idx = true -> key_truthy k = true.
Proof.
  intros H Hk. apply (collect_ids_spec _ _ _ H) in Hk.
  destruct Hk as [Hk|(r & oid & _ & _ & T & Hh)]; [discriminate Hk|].
  now rewrite (hash_key_truthy _ _ Hh).
Qed.

Lemma collect_ids_app (l1 l2 : list value) :
  forall acc,
    collect_ids (l1 ++ l2) acc
    = (idx <- collect_ids l1 acc ;; collect_ids l2 idx).
Proof.
  induction l1 as [|r l1 IH]; intros acc; cbn [collect_ids app bind];
    [reflexivity|].
  destruct (py_get r "Object ID" VNone) as [oid|e]; cbn [bind]; [|reflexivity].
  destruct (truthy oid); [|apply IH].
  destruct (hash_key oid) as [k|e]; cbn [bind]; [apply IH | reflexivity].
Qed.

(** ** Pipeline Orchestrator *)

Section OrchestratorFacts.

Variable fromisoformat : string -> option date.
Variable json_loads : string -> option value.

(** *** Store connection *)

Lemma init_sheet_fails_iff (w : world) :
  connection_fails json_loads w = true <->
  exists e, init_sheet json_loads w = Raise e.
Proof.
  unfold connection_fails, credential_missing, credential_invalid,
    worksheet_unreachable, init_sheet.
  destruct (SERVICE_ACCOUNT_JSON w) as [s|]; cbn; [|split; eauto].
  destruct (s =? ""); cbn; [split; eauto|].
  destruct (json_loads s) as [info|]; cbn; [|split; eauto].
  destruct (sheet_opens w info); cbn; split; eauto; try discriminate.
  intros [e [=]].
Qed.

(** C7. When the store connection cannot be established (the credential
    descriptor is missing or empty, is not valid JSON, or the worksheet
    cannot be authorized and opened), the run returns at once: no records
    are read for the index, no page is fetched, no append is attempted, and
    the store is as it was. *)
Theorem connection_failure_aborts (w : world) (sh : sheet) :
  connection_fails json_loads w = true ->
  exists e,
    fetch_and_upload fromisoformat json_loads w sh = mkrun (InitFailed e) [] sh.
Proof.
  intros H. apply init_sheet_fails_iff in H as [e He].
  exists e. unfold fetch_and_upload. now rewrite He.
Qed.

(** *** Reading a run backwards *)

Lemma run_finished (w : world) (sh : sheet) (st : state) :
  run_outcome (fetch_and_upload fromisoformat json_loads w sh) = Finished st ->
  exists idx evs,
    init_sheet json_loads w = Ok tt
    /\ get_existing_object_ids w sh = Ok idx
    /\ paging fromisoformat w idx (py_range max_articles page_size) (mkstate [] 0)
       = (evs, Ok st)
    /\ run_events (fetch_and_upload fromisoformat json_loads w sh) = EvRecords :: evs ++ fst (upload w sh st)
    /\ run_sheet (fetch_and_upload fromisoformat json_loads w sh) = snd (upload w sh st).
Proof.
  unfold fetch_and_upload.
  destruct (init_sheet json_loads w) as [[]|e]; [|discriminate].
  destruct (get_existing_object_ids w sh) as [idx|e]; [|discriminate].
  destruct (paging fromisoformat w idx _ _) as [evs [st'|e]] eqn:P; [|discriminate].
  destruct (upload w sh st') as [up sh'] eqn:U. cbn.
  intros [= ->]. exists idx, evs. rewrite U. auto.
Qed.

Lemma paging_events (w : world) (idx : list key) (offsets : list nat) :
  forall st evs r,
    paging fromisoformat w idx offsets st = (evs, r) ->
    exists fetched, evs = map EvGet fetched.
Proof.
  induction offsets as [|offset rest IH]; cbn [paging]; intros st evs r H.
  - injection H as <- _. now exists [].
  - destruct (requests_get w offset) as [|body].
    + injection H as <- _. now exists [offset].
    + destruct (visit_page fromisoformat w idx body st) as [[st' []]|e].
      * injection H as <- _. now exists [offset].
      * destruct (paging fromisoformat w idx rest st') as [evs' r'] eqn:P.
        injection H as <- _. destruct (IH _ _ _ P) as [fetched ->].
        now exists (offset :: fetched).
      * injection H as <- _. now exists [offset].
Qed.

(** *** Invariants of the accumulators *)

Section Invariant.

Variable w : world.
Variable idx : list key.
Variable P : state -> Prop.
Hypothesis visit_hit_keeps :
  forall st hit st', P st -> visit_hit fromisoformat w idx st hit = Ok st' -> P st'.

Lemma visit_hits_keeps (hits : list value) :
  forall st st', P st -> visit_hits fromisoformat w idx hits st = Ok st' -> P st'.
Proof.
  induction hits as [|hit hits IH]; cbn [visit_hits]; intros st st' HP H.
  - now injection H as <-.
  - bind_inv H. eauto.
Qed.

Lemma visit_page_keeps (body : value) (st st' : state) (brk : bool) :
  P st -> visit_page fromisoformat w idx body st = Ok (st', brk) -> P st'.
Proof.
  unfold visit_page. intros HP H. bind_inv H.
  destruct (negb (truthy a)).
  - now injection H as <- _.
  - bind_inv H. injection H as <- _. eapply visit_hits_keeps; eauto.
Qed.

Lemma paging_keeps (offsets : list nat) :
  forall st evs st', P st -> paging fromisoformat w idx offsets st = (evs, Ok st') -> P st'.
Proof.
  induction offsets as [|offset rest IH]; cbn [paging];
    intros st evs st' HP H.
  - now injection H as _ <-.
  - destruct (requests_get w offset) as [|body].
    + now injection H as _ <-.
    + destruct (visit_page fromisoformat w idx body st) as [[st1 []]|e] eqn:V.
      * injection H as _ <-. eapply visit_page_keeps; eauto.
      * destruct (paging fromisoformat w idx rest st1) as [evs' r'] eqn:Pg.
        injection H as _ ->. eapply IH; [|exact Pg].
        eapply visit_page_keeps; eauto.
      * discriminate H.
Qed.

End Invariant.

(** *** One hit *)

Lemma hit_key_id (hit : value) (k : key) :
  hit_key hit = Some k <->
  exists id, py_get hit "id" VNone = Ok id /\ hash_key id = Ok k.
Proof.
  unfold hit_key. destruct hit as [| | | | |d]; cbn [py_get];
    try (split; [discriminate | intros (id & [=] & _)]).
  destruct (hash_key _) as [k'|e] eqn:E; split.
  - intros [= ->]. eauto.
  - intros (id & [= <-] & Hk). congruence.
  - discriminate.
  - intros (id & [= <-] & Hk). congruence.
Qed.

(** The two ways a visit can go. *)
Lemma visit_hit_cases (w : world) (idx : list key) (st st' : state)
  (hit : value) :
  visit_hit fromisoformat w idx st hit = Ok st' ->
  exists k,
    hit_key hit = Some k
    /\ ((key_in k idx = true /\ st' = st)
        \/ (key_in k idx = false
            /\ exists r,
                 build_article_row fromisoformat hit
                   (now w (List.length (batch_to_append st))) = Ok r
                 /\ st' = mkstate (batch_to_append st ++ [r])
                                  (articles_checked st + 1))).
Proof.
  unfold visit_hit. intros H.
  apply bind_Ok in H as (id & Eid & H).
  apply bind_Ok in H as (known & Ein & H).
  unfold py_in in Ein. apply bind_Ok in Ein as (k & Ek & Ein).
  injection Ein as <-.
  exists k. split; [apply hit_key_id; eauto|].
  destruct (key_in k idx); cbn [negb] in H.
  - left. split; [reflexivity | congruence].
  - right. split; [reflexivity|].
    apply bind_Ok in H as (r & Er & H). injection H as <-. eauto.
Qed.

Lemma visit_hit_known (w : world) (idx : list key) (st : state)
  (hit : value) (k : key) :
  hit_key hit = Some k -> key_in k idx = true ->
  visit_hit fromisoformat w idx st hit = Ok st.
Proof.
  intros Hk Hin. apply hit_key_id in Hk as (id & Eid & Ek).
  unfold visit_hit, py_in. rewrite Eid. cbn [bind]. rewrite Ek. cbn [bind].
  now rewrite Hin.
Qed.

Lemma visit_hit_unknown (w : world) (idx : list key) (st : state)
  (hit : value) (k : key) (r : row) :
  hit_key hit = Some k -> key_in k idx = false ->
  build_article_row fromisoformat hit
    (now w (List.length (batch_to_append st))) = Ok r ->
  visit_hit fromisoformat w idx st hit
  = Ok (mkstate (batch_to_append st ++ [r]) (articles_checked st + 1)).
Proof.
  intros Hk Hin Hr. apply hit_key_id in Hk as (id & Eid & Ek).
  unfold visit_hit, py_in. rewrite Eid. cbn [bind]. rewrite Ek. cbn [bind].
  rewrite Hin. cbn [negb]. now rewrite Hr.
Qed.

Lemma visit_hits_app (w : world) (idx : list key) (h1 h2 : list value) :
  forall st,
    visit_hits fromisoformat w idx (h1 ++ h2) st
    = (st' <- visit_hits fromisoformat w idx h1 st ;;
       visit_hits fromisoformat w idx h2 st').
Proof.
  induction h1 as [|hit h1 IH]; intros st; cbn [visit_hits app bind];
    [reflexivity|].
  destruct (visit_hit fromisoformat w idx st hit) as [st1|e]; cbn [bind];
    [apply IH | reflexivity].
Qed.

(** *** The count and the batch *)

Lemma visit_hit_balanced (w : world) (idx : list key) (st st' : state)
  (hit : value) :
  balanced st -> visit_hit fromisoformat w idx st hit = Ok st' -> balanced st'.
Proof.
  unfold balanced. intros B H.
  apply visit_hit_cases in H as (k & _ & [[_ ->]|(_ & r & _ & ->)]);
    [exact B|].
  cbn. rewrite length_app. cbn. lia.
Qed.

Lemma upload_events (w : world) (sh : sheet) (st : state) (b : list row) :
  In (EvAppend b) (fst (upload w sh st)) -> b = batch_to_append st.
Proof.
  unfold upload. destruct (batch_to_append st) as [|r rs]; cbn; [tauto|].
  intros [[= <-]|[]]. reflexivity.
Qed.

(** C9. In every run that reaches its last log line the number of rows in
    the batch equals the reported count of articles checked: the two start
    empty and at zero and every visit of a hit keeps them equal.  Any
    append the run makes submits exactly that batch. *)
Theorem checked_counts_the_batch (w : world) (sh : sheet) (st : state) :
  run_outcome (fetch_and_upload fromisoformat json_loads w sh) = Finished st ->
  List.length (batch_to_append st) = articles_checked st
  /\ forall b,
       In (EvAppend b)
          (run_events (fetch_and_upload fromisoformat json_loads w sh)) ->
       b = batch_to_append st /\ List.length b = articles_checked st.
Proof.
  intros H. apply run_finished in H as (idx & evs & _ & _ & Pg & Ev & _).
  assert (B : balanced st).
  { apply (paging_keeps w idx balanced
             (fun s hit s' => visit_hit_balanced w idx s s' hit)
             _ (mkstate [] 0) _ _ eq_refl Pg). }
  split; [exact B|].
  intros b Hb. rewrite Ev in Hb. destruct Hb as [[=]|Hb].
  apply in_app_iff in Hb as [Hb|Hb].
  - destruct (paging_events _ _ _ _ _ _ Pg) as [fetched ->].
    apply in_map_iff in Hb as (o & [=] & _).
  - apply upload_events in Hb. subst b. split; [reflexivity | exact B].
Qed.

(** *** Hits already known *)

Lemma visit_hit_fresh (w : world) (idx : list key) (st st' : state)
  (hit : value) :
  Forall (fun r => py_in (object_id r) idx = Ok false) (batch_to_append st) ->
  visit_hit fromisoformat w idx st hit = Ok st' ->
  Forall (fun r => py_in (object_id r) idx = Ok false) (batch_to_append st').
Proof.
  intros F H.
  apply visit_hit_cases in H as (k & Hk & [[_ ->]|(Hin & r & Hr & ->)]);
    [exact F|].
  cbn [batch_to_append]. apply Forall_app. split; [exact F|].
  constructor; [|constructor].
  apply hit_key_id in Hk as (id & Eid & Ek).
  apply build_article_row_object_id in Hr. rewrite Eid in Hr.
  injection Hr as <-. unfold py_in. rewrite Ek. cbn [bind]. now rewrite Hin.
Qed.

(** No row of a finished run carries an identifier of the index. *)
Lemma batch_fresh (w : world) (sh : sheet) (st : state) (idx : list key) :
  run_outcome (fetch_and_upload fromisoformat json_loads w sh) = Finished st ->
  get_existing_object_ids w sh = Ok idx ->
  Forall (fun r => py_in (object_id r) idx = Ok false) (batch_to_append st).
Proof.
  intros H Hidx. apply run_finished in H as (idx' & evs & _ & E & Pg & _).
  rewrite Hidx in E. injection E as <-.
  apply (paging_keeps w idx
           (fun s => Forall (fun r => py_in (object_id r) idx = Ok false)
                            (batch_to_append s))
           (fun s hit s' => visit_hit_fresh w idx s s' hit)
           _ (mkstate [] 0) _ _ (Forall_nil _) Pg).
Qed.

(** C2. A hit whose identifier is in the Existing-Key Index leaves the
    accumulators as they were: no row is mapped, the batch does not grow and
    the count does not move, so a page visits as if the hit were not in it;
    and no row of the batch of a finished run carries an identifier of the
    index built at its start. *)
Theorem known_hit_is_skipped (w : world) (idx : list key) (hit : value)
  (k : key) :
  hit_key hit = Some k ->
  key_in k idx = true ->
  (forall st, visit_hit fromisoformat w idx st hit = Ok st)
  /\ (forall before after st,
        visit_hits fromisoformat w idx (before ++ hit :: after) st
        = visit_hits fromisoformat w idx (before ++ after) st)
  /\ (forall sh st,
        get_existing_object_ids w sh = Ok idx ->
        run_outcome (fetch_and_upload fromisoformat json_loads w sh)
        = Finished st ->
        forall r, In r (batch_to_append st) -> row_key r <> Some k).
Proof.
  intros Hk Hin. split; [|split].
  - intros st. now apply visit_hit_known with k.
  - intros before after st. rewrite !visit_hits_app.
    destruct (visit_hits fromisoformat w idx before st) as [st1|e];
      cbn [bind visit_hits]; [|reflexivity].
    now rewrite (visit_hit_known w idx st1 hit k Hk Hin).
  - intros sh st Hidx Hfin r Hr.
    pose proof (batch_fresh w sh st idx Hfin Hidx) as F.
    rewrite Forall_forall in F. specialize (F r Hr).
    unfold py_in in F. unfold row_key.
    destruct (hash_key (object_id r)) as [k'|e]; [|discriminate].
    cbn [bind] in F. intros [= ->]. congruence.
Qed.

(** *** A page that cannot be fetched *)

Lemma paging_stops_at_failure (w : world) (idx : list key)
  (before : list nat) (offset : nat) (after : list nat) (st st' : state) :
  pages_through fromisoformat w idx before st st' ->
  requests_get w offset = Failed ->
  paging fromisoformat w idx (before ++ offset :: after) st
  = (map EvGet (before ++ [offset]), Ok st').
Proof.
  intros T F. induction T as [st|o rest body st st1 st2 G V T IH];
    cbn [app paging map].
  - now rewrite F.
  - now rewrite G, V, IH.
Qed.

Lemma append_rows_nil (sh : sheet) : append_rows sh [] = sh.
Proof. destruct sh. unfold append_rows. cbn. now rewrite app_nil_r. Qed.

Lemma upload_sheet (w : world) (sh : sheet) (st : state) :
  append_accepted w = true ->
  snd (upload w sh st) = append_rows sh (batch_to_append st).
Proof.
  intros A. unfold upload.
  destruct (batch_to_append st); cbn [snd];
    [now rewrite append_rows_nil | now rewrite A].
Qed.

(** C6. When the pages before some offset are fetched and visited and the
    fetch at that offset fails, paging stops there (no later page is
    requested), the run is not aborted, the accumulators are exactly those
    the earlier pages left, and the upload phase runs on them: a non-empty
    batch is submitted in one append, and an accepted append leaves the
    store extended by that batch. *)
Theorem fetch_failure_keeps_partial_batch (w : world) (sh : sheet)
  (idx : list key) (before : list nat) (offset : nat) (after : list nat)
  (st : state) :
  init_sheet json_loads w = Ok tt ->
  get_existing_object_ids w sh = Ok idx ->
  py_range max_articles page_size = before ++ offset :: after ->
  pages_through fromisoformat w idx before (mkstate [] 0) st ->
  requests_get w offset = Failed ->
  run_outcome (fetch_and_upload fromisoformat json_loads w sh) = Finished st
  /\ run_events (fetch_and_upload fromisoformat json_loads w sh)
     = EvRecords :: map EvGet (before ++ [offset])
       ++ match batch_to_append st with
          | [] => []
          | batch => [EvAppend batch]
          end
  /\ (append_accepted w = true ->
      run_sheet (fetch_and_upload fromisoformat json_loads w sh)
      = append_rows sh (batch_to_append st)).
Proof.
  intros I X R T F.
  pose proof (paging_stops_at_failure w idx before offset after _ _ T F) as Pg.
  rewrite <- R in Pg.
  unfold fetch_and_upload. rewrite I, X, Pg.
  destruct (upload w sh st) as [up sh'] eqn:U. cbn [run_outcome run_events run_sheet].
  split; [reflexivity|]. split.
  - f_equal. f_equal. unfold upload in U.
    destruct (batch_to_append st); now injection U as <- _.
  - intros A. pose proof (upload_sheet w sh st A) as S.
    now rewrite U in S.
Qed.

(** *** Identifiers in a batch *)

Lemma NoDup_drop_middle {A : Type} (l m r : list A) :
  NoDup (l ++ m ++ r) -> NoDup (l ++ r).
Proof.
  induction m as [|a m IH]; cbn [app]; [trivial|].
  intros H. apply IH. now apply NoDup_remove_1 in H.
Qed.

Lemma built_row_key (hit : value) (ts : string) (r : row) (k : key) :
  hit_key hit = Some k ->
  build_article_row fromisoformat hit ts = Ok r ->
  row_key r = Some k.
Proof.
  intros Hk Hr. apply hit_key_id in Hk as (id & Eid & Ek).
  apply build_article_row_object_id in Hr. rewrite Eid in Hr.
  injection Hr as Hr. unfold row_key. now rewrite <- Hr, Ek.
Qed.

Lemma visit_hits_distinct (w : world) (idx : list key) (hits : list value)
  (later : list (option key)) :
  forall st st',
    NoDup (map row_key (batch_to_append st) ++ map hit_key hits ++ later) ->
    visit_hits fromisoformat w idx hits st = Ok st' ->
    NoDup (map row_key (batch_to_append st') ++ later).
Proof.
  induction hits as [|hit hits IH]; cbn [visit_hits map app]; intros st st' N H.
  - now injection H as <-.
  - apply bind_Ok in H as (st1 & V & H). apply (IH st1 st'); [|exact H].
    apply visit_hit_cases in V as (k & Hk & [[_ ->]|(_ & r & Hr & ->)]).
    + now apply NoDup_remove_1 in N.
    + cbn [batch_to_append]. rewrite map_app, <- app_assoc. cbn [map app].
      now rewrite (built_row_key _ _ _ _ Hk Hr), <- Hk.
Qed.

Lemma visit_page_distinct (w : world) (idx : list key) (body : value)
  (later : list (option key)) (st st' : state) (brk : bool) :
  NoDup (map row_key (batch_to_append st)
         ++ map hit_key (page_hits (Json body)) ++ later) ->
  visit_page fromisoformat w idx body st = Ok (st', brk) ->
  NoDup (map row_key (batch_to_append st') ++ later).
Proof.
  unfold visit_page, page_hits. intros N H.
  apply bind_Ok in H as (hits & G & H). rewrite G in N. cbn [bind] in N.
  destruct (negb (truthy hits)).
  - injection H as <- _. now apply NoDup_drop_middle in N.
  - apply bind_Ok in H as (items & It & H). rewrite It in N.
    apply bind_Ok in H as (st1 & V & H). injection H as <- _.
    now apply (visit_hits_distinct w idx items later st).
Qed.

Lemma paging_distinct (w : world) (idx : list key) (offsets : list nat) :
  forall st evs st',
    NoDup (map row_key (batch_to_append st)
           ++ map hit_key (served_hits w offsets)) ->
    paging fromisoformat w idx offsets st = (evs, Ok st') ->
    NoDup (map row_key (batch_to_append st')).
Proof.
  induction offsets as [|offset rest IH]; cbn [paging served_hits flat_map];
    intros st evs st' N H.
  - injection H as _ <-. now apply NoDup_app_remove_r in N.
  - destruct (requests_get w offset) as [|body].
    + injection H as _ <-. now apply NoDup_app_remove_r in N.
    + rewrite map_app in N.
      destruct (visit_page fromisoformat w idx body st) as [[st1 brk]|e] eqn:V;
        [|discriminate H].
      apply (visit_page_distinct w idx body _ st st1 brk) in N; [|exact V].
      destruct brk.
      * injection H as _ <-. now apply NoDup_app_remove_r in N.
      * destruct (paging fromisoformat w idx rest st1) as [evs' r'] eqn:Pg.
        injection H as _ ->. now apply (IH st1 evs').
Qed.

(** C1, amended.  In every run that reaches the upload phase, no row of the
    batch has an Object ID equal to a truthy Object ID of a record the store
    held when the run started; and when the hits the API holds for the
    pages of the run carry pairwise distinct identifiers, the rows of the
    batch carry pairwise distinct Object IDs. *)
Theorem batch_ids_new_and_distinct (w : world) (sh : sheet) (st : state) :
  run_outcome (fetch_and_upload fromisoformat json_loads w sh) = Finished st ->
  (forall r record oid,
      In r (batch_to_append st) ->
      In record (get_all_records sh) ->
      py_get record "Object ID" VNone = Ok oid ->
      truthy oid = true ->
      hash_key (object_id r) <> hash_key oid)
  /\ (NoDup (map hit_key (served_hits w (py_range max_articles page_size))) ->
      NoDup (map row_key (batch_to_append st))).
Proof.
  intros H. pose proof H as H'.
  apply run_finished in H' as (idx & evs & _ & X & Pg & _). split.
  - intros r record oid Hr Hrec Hoid T E.
    pose proof (batch_fresh w sh st idx H X) as F.
    rewrite Forall_forall in F. specialize (F r Hr).
    unfold py_in in F. apply bind_Ok in F as (k & Hk & F).
    injection F as F.
    unfold get_existing_object_ids in X.
    destruct (records_readable w); [|discriminate X].
    assert (K : key_in k idx = true).
    { apply (collect_ids_spec _ _ _ X k). right.
      exists record, oid. repeat split; try assumption. congruence. }
    congruence.
  - intros N.
    exact (paging_distinct w idx (py_range max_articles page_size)
             (mkstate [] 0) evs st N Pg).
Qed.

(** *** Hits without a usable identifier *)

Lemma id_falsy_key (hit : value) :
  is_dict hit = true -> id_falsy_scalar hit = true ->
  exists k, hit_key hit = Some k /\ key_truthy k = false.
Proof.
  destruct hit as [| | | | |d]; try discriminate. intros _.
  unfold id_falsy_scalar, hit_key. cbn [field].
  destruct (assoc "id" d) as [v|]; [|intros _; now exists KNone].
  destruct v; try discriminate; cbn [hash_key truthy key_truthy];
    intros H; eexists; (split; [reflexivity|]);
    try reflexivity; try (now apply negb_true_iff in H).
  destruct b; [discriminate H | reflexivity].
Qed.

(** C10, amended.  The index holds no key of a falsy value, so a
    well-formed hit whose identifier is absent, null, or a falsy string,
    number or boolean is never found in it, whatever the store holds (a row
    mapped from the same hit included): the hit is mapped to a full row
    whose Object ID cell is that falsy identifier, the row joins the batch
    and the count moves. *)
Theorem falsy_id_is_never_deduplicated (w : world) (sh : sheet)
  (idx : list key) (hit : value) (st : state) :
  get_existing_object_ids w sh = Ok idx ->
  well_formed_hit hit = true ->
  id_falsy_scalar hit = true ->
  (forall k, key_in k idx = true -> key_truthy k = true)
  /\ exists r id,
       build_article_row fromisoformat hit
         (now w (List.length (batch_to_append st))) = Ok r
       /\ List.length r = List.length COLUMNS
       /\ py_get hit "id" VNone = Ok id
       /\ nth_error r 9 = Some id
       /\ truthy id = false
       /\ visit_hit fromisoformat w idx st hit
          = Ok (mkstate (batch_to_append st ++ [r]) (articles_checked st + 1)).
Proof.
  intros X W F.
  unfold get_existing_object_ids in X.
  destruct (records_readable w); [|discriminate X].
  assert (T : forall k, key_in k idx = true -> key_truthy k = true).
  { intros k. now apply collect_ids_truthy with (get_all_records sh). }
  split; [exact T|].
  destruct (build_article_row_total fromisoformat hit
              (now w (List.length (batch_to_append st))) W) as [r Hr].
  destruct (well_formed_display hit W) as [Hd _].
  destruct (id_falsy_key hit Hd F) as (k & Hk & Kf).
  pose proof Hk as Hk'. apply hit_key_id in Hk' as (id & Eid & Ek).
  exists r, id. split; [exact Hr|].
  split; [now apply build_article_row_length in Hr|].
  split; [exact Eid|]. split; [|split].
  - pose proof Hr as C. apply build_article_row_cells in C.
    destruct C as (? & ? & ? & ? & ? & ? & ? & ? & ? & oid & -> & G & _).
    cbn. congruence.
  - now rewrite <- (hash_key_truthy _ _ Ek).
  - apply visit_hit_unknown with k; [exact Hk| |exact Hr].
    destruct (key_in k idx) eqn:K; [|reflexivity].
    apply T in K. congruence.
Qed.

(** *** A second run over the same pages *)

Lemma record_object_id (reading : value -> value) (r : row) :
  List.length r = List.length COLUMNS ->
  py_get (record_of reading COLUMNS r) "Object ID" VNone
  = Ok (reading (object_id r)).
Proof.
  intros L. do 11 (destruct r as [|? r]; [discriminate L|]).
  destruct r; [reflexivity | discriminate L].
Qed.

Lemma reads_alike_key (reading : value -> value) (v : value) (k : key) :
  reads_alike reading v = true ->
  truthy v = true ->
  hash_key v = Ok k ->
  hash_key (reading v) = Ok k /\ truthy (reading v) = true.
Proof.
  unfold reads_alike. intros R T H. rewrite T, H in R.
  destruct (hash_key (reading v)) as [k'|e] eqn:H'; [|discriminate R].
  apply key_eqb_eq in R. subst k'. split; [reflexivity|].
  now rewrite <- (hash_key_truthy _ _ H'), (hash_key_truthy _ _ H).
Qed.

(** Every row of a batch was mapped from a hit the API served. *)
Lemma visit_hits_origin (w : world) (idx : list key) (served : list value)
  (hits : list value) :
  (forall h, In h hits -> In h served) ->
  forall st st',
    Forall (fun r => exists hit, In hit served
                                 /\ py_get hit "id" VNone = Ok (object_id r))
           (batch_to_append st) ->
    visit_hits fromisoformat w idx hits st = Ok st' ->
    Forall (fun r => exists hit, In hit served
                                 /\ py_get hit "id" VNone = Ok (object_id r))
           (batch_to_append st').
Proof.
  induction hits as [|hit hits IH]; cbn [visit_hits]; intros S st st' F H.
  - now injection H as <-.
  - apply bind_Ok in H as (st1 & V & H).
    apply (IH (fun h I => S h (or_intror I)) st1 st'); [|exact H].
    apply visit_hit_cases in V as (k & _ & [[_ ->]|(_ & r & Hr & ->)]);
      [exact F|].
    cbn [batch_to_append]. apply Forall_app. split; [exact F|].
    constructor; [|constructor]. exists hit. split; [apply S; now left|].
    now apply build_article_row_object_id in Hr.
Qed.

Lemma paging_origin (w : world) (idx : list key) (served : list value)
  (offsets : list nat) :
  (forall h, In h (served_hits w offsets) -> In h served) ->
  forall st evs st',
    Forall (fun r => exists hit, In hit served
                                 /\ py_get hit "id" VNone = Ok (object_id r))
           (batch_to_append st) ->
    paging fromisoformat w idx offsets st = (evs, Ok st') ->
    Forall (fun r => exists hit, In hit served
                                 /\ py_get hit "id" VNone = Ok (object_id r))
           (batch_to_append st').
Proof.
  induction offsets as [|offset rest IH];
    cbn [paging served_hits flat_map]; intros S st evs st' F H.
  - now injection H as _ <-.
  - destruct (requests_get w offset) as [|body].
    + now injection H as _ <-.
    + destruct (visit_page fromisoformat w idx body st) as [[st1 brk]|e] eqn:V;
        [|discriminate H].
      assert (F1 : Forall (fun r => exists hit,
                               In hit served
                               /\ py_get hit "id" VNone = Ok (object_id r))
                          (batch_to_append st1)).
      { unfold visit_page in V. unfold page_hits in S.
        apply bind_Ok in V as (hits & G & V). rewrite G in S.
        cbn [bind] in S. destruct (negb (truthy hits)).
        - assert (st1 = st) by congruence. now subst st1.
        - apply bind_Ok in V as (items & It & V). rewrite It in S.
          apply bind_Ok in V as (st1' & Vh & V).
          assert (st1' = st1) by congruence. subst st1'.
          apply (visit_hits_origin w idx served items) with (st := st);
            [|exact F|exact Vh].
          intros h I. apply S. apply in_app_iff. now left. }
      destruct brk.
      * now injection H as _ <-.
      * destruct (paging fromisoformat w idx rest st1) as [evs1 r1] eqn:Pg.
        injection H as _ ->. apply (IH (fun h I => S h (proj2 (in_app_iff _ _ _) (or_intror I))) st1 evs1 st' F1 Pg).
Qed.

Lemma visit_hit_row_length (w : world) (idx : list key) (st st' : state)
  (hit : value) :
  Forall (fun r => List.length r = List.length COLUMNS) (batch_to_append st) ->
  visit_hit fromisoformat w idx st hit = Ok st' ->
  Forall (fun r => List.length r = List.length COLUMNS) (batch_to_append st').
Proof.
  intros F H.
  apply visit_hit_cases in H as (k & _ & [[_ ->]|(_ & r & Hr & ->)]);
    [exact F|].
  cbn [batch_to_append]. apply Forall_app. split; [exact F|].
  constructor; [|constructor]. now apply build_article_row_length in Hr.
Qed.

Lemma visit_hit_keeps_rows (w : world) (idx : list key) (r : row)
  (st st' : state) (hit : value) :
  In r (batch_to_append st) ->
  visit_hit fromisoformat w idx st hit = Ok st' ->
  In r (batch_to_append st').
Proof.
  intros I H.
  apply visit_hit_cases in H as (k & _ & [[_ ->]|(_ & r' & _ & ->)]);
    [exact I|].
  cbn [batch_to_append]. apply in_app_iff. now left.
Qed.

Lemma visit_hits_count (w : world) (idx : list key) (hits : list value) :
  forall st st',
    visit_hits fromisoformat w idx hits st = Ok st' ->
    articles_checked st' <= articles_checked st + List.length hits.
Proof.
  induction hits as [|hit hits IH]; cbn [visit_hits List.length];
    intros st st' H.
  - injection H as <-. lia.
  - apply bind_Ok in H as (st1 & V & H). apply IH in H.
    apply visit_hit_cases in V as (k & _ & [[_ ->]|(_ & r & _ & ->)]);
      cbn [articles_checked] in *; lia.
Qed.

Lemma id_truthy_key (hit : value) (k : key) :
  id_truthy hit = true -> hit_key hit = Some k -> key_truthy k = true.
Proof.
  unfold id_truthy, hit_key. destruct hit as [| | | | |d]; try discriminate.
  cbn [field]. destruct (assoc "id" d) as [v|]; [|discriminate].
  intros T. destruct (hash_key v) as [k'|e] eqn:E; [|discriminate].
  intros [= <-]. now rewrite (hash_key_truthy _ _ E).
Qed.

Section SecondRun.

Variables w w2 : world.
Variables idx idx2 : list key.
Hypothesis same_api : forall offset, requests_get w2 offset = requests_get w offset.
Hypothesis index_grew : forall k, key_in k idx = true -> key_in k idx2 = true.

(** Every hit the first run visited is known to the second. *)
Lemma visit_hits_again (hits : list value) :
  forall st st',
    visit_hits fromisoformat w idx hits st = Ok st' ->
    forallb id_truthy hits = true ->
    (forall r k, In r (batch_to_append st') -> row_key r = Some k ->
                 key_truthy k = true -> key_in k idx2 = true) ->
    forall s2, visit_hits fromisoformat w2 idx2 hits s2 = Ok s2.
Proof.
  induction hits as [|hit hits IH]; cbn [visit_hits forallb];
    intros st st' H T New s2; [reflexivity|].
  apply andb_prop in T as [Th T].
  apply bind_Ok in H as (st1 & V & H).
  assert (K : exists k, hit_key hit = Some k /\ key_in k idx2 = true).
  { pose proof V as V'.
    apply visit_hit_cases in V' as (k & Hk & [[Hin _]|(_ & r & Hr & ->)]);
      exists k; (split; [exact Hk|]).
    - now apply index_grew.
    - apply (New r k).
      + eapply (visit_hits_keeps w idx (fun s => In r (batch_to_append s))
                  (fun s h s' => visit_hit_keeps_rows w idx r s s' h)
                  hits); [|exact H].
        cbn [batch_to_append]. apply in_app_iff. right. now left.
      + now apply built_row_key with hit (now w (List.length (batch_to_append st))).
      + now apply id_truthy_key with hit. }
  destruct K as (k & Hk & Hin).
  rewrite (visit_hit_known w2 idx2 s2 hit k Hk Hin). cbn [bind].
  now apply (IH st1 st').
Qed.

Hypothesis page_bound :
  forall offset, List.length (page_hits (requests_get w offset)) <= page_size.

Lemma paging_again (offsets : list nat) :
  forall st evs st',
    paging fromisoformat w idx offsets st = (evs, Ok st') ->
    forallb id_truthy (served_hits w offsets) = true ->
    articles_checked st + page_size * List.length offsets <= max_articles ->
    (forall r k, In r (batch_to_append st') -> row_key r = Some k ->
                 key_truthy k = true -> key_in k idx2 = true) ->
    exists evs2,
      paging fromisoformat w2 idx2 offsets (mkstate [] 0)
      = (evs2, Ok (mkstate [] 0)).
Proof.
  induction offsets as [|offset rest IH];
    cbn [paging served_hits flat_map List.length]; intros st evs st' H T B New.
  - eauto.
  - rewrite same_api. specialize (page_bound offset).
    destruct (requests_get w offset) as [|body]; [eauto|].
    rewrite forallb_app in T. apply andb_prop in T as [Tp T].
    destruct (visit_page fromisoformat w idx body st) as [[st1 brk]|e] eqn:V;
      [|discriminate H].
    unfold visit_page in V |- *. unfold page_hits in Tp, page_bound.
    apply bind_Ok in V as (hits & G & V). rewrite G in *. cbn [bind] in *.
    destruct (negb (truthy hits)); [eauto|].
    apply bind_Ok in V as (items & It & V). rewrite It in *. cbn [bind] in *.
    apply bind_Ok in V as (st1' & Vh & V).
    assert (E1 : st1' = st1) by congruence.
    assert (E2 : brk = (max_articles <=? articles_checked st1')%nat)
      by congruence.
    clear V. subst st1' brk.
    pose proof (visit_hits_count w idx items _ _ Vh) as C.
    destruct (max_articles <=? articles_checked st1)%nat eqn:M.
    + injection H as _ E. subst st'.
      rewrite (visit_hits_again items st st1 Vh Tp New). cbn [bind].
      apply Nat.leb_le in M.
      assert (R : rest = []).
      { destruct rest; [reflexivity|]. cbn [List.length] in B.
        unfold page_size, max_articles in *. lia. }
      subst rest. cbn. eauto.
    + destruct (paging fromisoformat w idx rest st1) as [evs1 r1] eqn:Pg.
      injection H as _ ->.
      rewrite (visit_hits_again items st st1 Vh Tp). 2:{
        intros r k I. apply New.
        apply (paging_keeps w idx (fun s => In r (batch_to_append s))
                 (fun s h s' => visit_hit_keeps_rows w idx r s s' h)
                 rest st1 evs1 st' I Pg). }
      cbn [bind articles_checked Nat.leb].
      destruct (IH st1 evs1 st' Pg T) as [evs2 E2]; [|exact New|].
      * unfold page_size in *. lia.
      * rewrite E2. cbn. eauto.
Qed.

End SecondRun.

Lemma get_all_records_appended (sh : sheet) (batch : list row) :
  get_all_records (append_rows sh batch)
  = get_all_records sh ++ map (record_of (reads_as sh) (header sh)) batch.
Proof. unfold get_all_records, append_rows. cbn. apply map_app. Qed.

Lemma no_append_among_fetches (fetched : list nat) (b : list row) :
  ~ In (EvAppend b) (EvRecords :: map EvGet fetched ++ []).
Proof.
  rewrite app_nil_r. intros [[=]|H].
  apply in_map_iff in H as (o & [=] & _).
Qed.

(** C3, amended.  Let a first run reach the upload phase and its append be
    accepted, so that the store holds the rows of its batch; let every hit
    the API holds for the pages of a run carry a truthy identifier that
    reads back from the store under the same key, and let no page hold more
    than [page_size] hits.  Then a second run against the same API responses
    makes no append and leaves the store as the first run left it: every hit
    it visits is found in the rebuilt index, and it ends with an empty batch
    and a count of zero. *)
Theorem second_run_appends_nothing (w w2 : world) (sh : sheet) (st : state) :
  header sh = COLUMNS ->
  run_outcome (fetch_and_upload fromisoformat json_loads w sh) = Finished st ->
  append_accepted w = true ->
  forallb (id_survives (reads_as sh))
          (served_hits w (py_range max_articles page_size)) = true ->
  (forall offset,
      List.length (page_hits (requests_get w offset)) <= page_size) ->
  (forall offset, requests_get w2 offset = requests_get w offset) ->
  let sh1 := run_sheet (fetch_and_upload fromisoformat json_loads w sh) in
  sh1 = append_rows sh (batch_to_append st)
  /\ run_sheet (fetch_and_upload fromisoformat json_loads w2 sh1) = sh1
  /\ (forall b,
        ~ In (EvAppend b)
             (run_events (fetch_and_upload fromisoformat json_loads w2 sh1)))
  /\ (forall st2,
        run_outcome (fetch_and_upload fromisoformat json_loads w2 sh1)
        = Finished st2 ->
        st2 = mkstate [] 0).
Proof.
  intros Hdr H A Sv Bound Same sh1. pose proof H as H'.
  apply run_finished in H' as (idx & evs & _ & X & Pg & _ & Sh).
  assert (E1 : sh1 = append_rows sh (batch_to_append st)).
  { unfold sh1. rewrite Sh. now apply upload_sheet. }
  split; [exact E1|]. clearbody sh1. subst sh1.
  assert (T : forallb id_truthy
                (served_hits w (py_range max_articles page_size)) = true).
  { rewrite forallb_forall in Sv |- *. intros h I. specialize (Sv h I).
    unfold id_survives in Sv. now apply andb_prop in Sv. }
  unfold fetch_and_upload at 1 2 3.
  destruct (init_sheet json_loads w2) as [[]|e];
    [|cbn; repeat split; try discriminate; intros b []].
  destruct (get_existing_object_ids w2 _) as [idx2|e] eqn:X2;
    [|cbn; repeat split; try discriminate; intros b [[=]|[]]].
  unfold get_existing_object_ids in X, X2.
  destruct (records_readable w); [|discriminate X].
  destruct (records_readable w2); [|discriminate X2].
  rewrite get_all_records_appended, Hdr in X2.
  assert (Grew : forall k, key_in k idx = true -> key_in k idx2 = true).
  { intros k K. apply (collect_ids_spec _ _ _ X k) in K.
    destruct K as [K|(record & oid & I & G & Tr & Hk)]; [discriminate K|].
    apply (collect_ids_spec _ _ _ X2 k). right. exists record, oid.
    repeat split; try assumption. apply in_app_iff. now left. }
  assert (Len : Forall (fun r => List.length r = List.length COLUMNS)
                       (batch_to_append st)).
  { apply (paging_keeps w idx
             (fun s => Forall (fun r => List.length r = List.length COLUMNS)
                              (batch_to_append s))
             (fun s hit s' => visit_hit_row_length w idx s s' hit)
             _ (mkstate [] 0) _ _ (Forall_nil _) Pg). }
  pose proof (paging_origin w idx _ _ (fun h I => I) (mkstate [] 0) evs st
                (Forall_nil _) Pg) as Org.
  assert (New : forall r k, In r (batch_to_append st) -> row_key r = Some k ->
                            key_truthy k = true -> key_in k idx2 = true).
  { intros r k I Rk Kt. rewrite Forall_forall in Len, Org.
    unfold row_key in Rk.
    destruct (hash_key (object_id r)) as [k'|e] eqn:Hk; [|discriminate Rk].
    injection Rk as ->.
    destruct (Org r I) as (hit & Ih & Gh).
    rewrite forallb_forall in Sv. specialize (Sv hit Ih).
    unfold id_survives, id_reads_alike in Sv. apply andb_prop in Sv as [_ Sv].
    destruct hit as [| | | | |d]; try discriminate Sv.
    cbn [py_get] in Gh. injection Gh as Gh. rewrite Gh in Sv.
    destruct (reads_alike_key _ _ k Sv) as [Hk2 Tr2];
      [now rewrite (hash_key_truthy _ _ Hk) in Kt | exact Hk |].
    apply (collect_ids_spec _ _ _ X2 k). right.
    exists (record_of (reads_as sh) COLUMNS r), (reads_as sh (object_id r)).
    repeat split.
    - apply in_app_iff. right. now apply in_map.
    - apply record_object_id. now apply Len.
    - exact Tr2.
    - exact Hk2. }
  destruct (paging_again w w2 idx idx2 Same Grew Bound
              (py_range max_articles page_size) (mkstate [] 0) evs st Pg T)
    as [evs2 Pg2]; [vm_compute; lia | exact New |].
  rewrite Pg2. cbn [upload batch_to_append run_sheet run_events run_outcome].
  destruct (paging_events _ _ _ _ _ _ Pg2) as [fetched ->].
  repeat split.
  - intros b. apply no_append_among_fetches.
  - now intros st2 [= <-].
Qed.

End OrchestratorFacts.

(** ** The pipeline on the sample worlds *)

(** One page of three hits, one of them already stored: two rows are
    appended and two articles are reported as checked. *)
Example one_page_two_new_hits :
  let r := sample_run (world_of api_one_page) store_with_wk2 in
  articles_checked (final_state r) = 2
  /\ map object_id (batch_to_append (final_state r)) = [VStr "wk-1"; VStr "wk-3"]
  /\ run_events r
     = [EvRecords; EvGet 0; EvGet 10; EvAppend (batch_to_append (final_state r))]
  /\ map object_id (rows (run_sheet r))
     = [VStr "wk-2"; VStr "wk-1"; VStr "wk-3"].
Proof. vm_compute. repeat split. Qed.

Lemma connection_failure_aborts_witness :
  connection_fails sample_json_loads world_without_credentials = true
  /\ exists e,
       sample_run world_without_credentials store_with_wk2
       = mkrun (InitFailed e) [] store_with_wk2.
Proof.
  split; [reflexivity|].
  apply (connection_failure_aborts IsoParser.fromisoformat sample_json_loads
           world_without_credentials store_with_wk2).
  reflexivity.
Defined.

Lemma checked_counts_the_batch_witness :
  let r := sample_run (world_of api_one_page) store_with_wk2 in
  List.length (batch_to_append (final_state r)) = articles_checked (final_state r)
  /\ forall b,
       In (EvAppend b) (run_events r) ->
       b = batch_to_append (final_state r)
       /\ List.length b = articles_checked (final_state r).
Proof.
  apply (checked_counts_the_batch IsoParser.fromisoformat sample_json_loads
           (world_of api_one_page) store_with_wk2).
  reflexivity.
Defined.

Lemma known_hit_is_skipped_witness :
  hit_key hit_absolute_thumbnail = Some (KStr "wk-2")
  /\ key_in (KStr "wk-2") [KStr "wk-2"] = true
  /\ forall st,
       visit_hit IsoParser.fromisoformat (world_of api_one_page)
         [KStr "wk-2"] st hit_absolute_thumbnail = Ok st.
Proof.
  split; [reflexivity|]. split; [reflexivity|].
  apply (known_hit_is_skipped IsoParser.fromisoformat sample_json_loads
           (world_of api_one_page) [KStr "wk-2"] hit_absolute_thumbnail
           (KStr "wk-2")); reflexivity.
Defined.

Lemma fetch_failure_keeps_partial_batch_witness :
  let w := world_of api_second_page_down in
  let st := final_state (sample_run w empty_store) in
  pages_through IsoParser.fromisoformat w [] [0] (mkstate [] 0) st
  /\ requests_get w 10 = Failed
  /\ run_outcome (sample_run w empty_store) = Finished st
  /\ run_events (sample_run w empty_store)
     = EvRecords :: map EvGet ([0] ++ [10])
       ++ match batch_to_append st with
          | [] => []
          | batch => [EvAppend batch]
          end
  /\ (append_accepted w = true ->
      run_sheet (sample_run w empty_store)
      = append_rows empty_store (batch_to_append st)).
Proof.
  intros w st.
  assert (T : pages_through IsoParser.fromisoformat w [] [0] (mkstate [] 0) st).
  { eapply through_cons; [reflexivity | reflexivity | apply through_nil]. }
  split; [exact T|]. split; [reflexivity|].
  apply (fetch_failure_keeps_partial_batch IsoParser.fromisoformat
           sample_json_loads w empty_store [] [0] 10 [20; 30; 40] st);
    try reflexivity.
  exact T.
Defined.

Lemma batch_ids_new_and_distinct_witness :
  let w := world_of api_one_page in
  let st := final_state (sample_run w store_with_wk2) in
  run_outcome (sample_run w store_with_wk2) = Finished st
  /\ (forall r record oid,
         In r (batch_to_append st) ->
         In record (get_all_records store_with_wk2) ->
         py_get record "Object ID" VNone = Ok oid ->
         truthy oid = true ->
         hash_key (object_id r) <> hash_key oid)
  /\ (NoDup (map hit_key (served_hits w (py_range max_articles page_size))) ->
      NoDup (map row_key (batch_to_append st))).
Proof.
  intros w st. split; [reflexivity|].
  apply (batch_ids_new_and_distinct IsoParser.fromisoformat sample_json_loads
           w store_with_wk2 st).
  reflexivity.
Defined.

(** C1 as stated fails: the same article on two successive pages (a new
    article was published between the two fetches) is mapped twice, and the
    store receives two rows with one Object ID. *)
Lemma overlapping_pages_duplicate_a_row :
  let r := sample_run (world_of api_overlap) empty_store in
  NoDup (map object_id (rows empty_store))
  /\ map object_id (batch_to_append (final_state r)) = [VStr "wk-1"; VStr "wk-1"]
  /\ rows (run_sheet r) = batch_to_append (final_state r)
  /\ ~ NoDup (map object_id (rows (run_sheet r))).
Proof.
  cbv zeta. split; [constructor|]. split; [reflexivity|].
  split; [reflexivity|].
  intros N.
  assert (E : map object_id
                (rows (run_sheet (sample_run (world_of api_overlap) empty_store)))
              = [VStr "wk-1"; VStr "wk-1"]) by reflexivity.
  rewrite E in N. inversion N as [|x l Hx _]. apply Hx. now left.
Qed.

Lemma second_run_appends_nothing_witness :
  let w := world_of api_one_page in
  let st := final_state (sample_run w store_with_wk2) in
  let sh1 := run_sheet (sample_run w store_with_wk2) in
  run_outcome (sample_run w store_with_wk2) = Finished st
  /\ forallb (id_survives (reads_as store_with_wk2))
             (served_hits w (py_range max_articles page_size)) = true
  /\ sh1 = append_rows store_with_wk2 (batch_to_append st)
  /\ run_sheet (sample_run w sh1) = sh1
  /\ (forall b, ~ In (EvAppend b) (run_events (sample_run w sh1)))
  /\ (forall st2, run_outcome (sample_run w sh1) = Finished st2 ->
                  st2 = mkstate [] 0).
Proof.
  intros w st sh1. split; [reflexivity|]. split; [reflexivity|].
  apply (second_run_appends_nothing IsoParser.fromisoformat sample_json_loads
           w w store_with_wk2 st); try reflexivity.
  intros [|n]; [cbn; unfold page_size; lia|].
  unfold w, world_of, requests_get, api_one_page.
  destruct n as [|n]; cbn; unfold page_size; lia.
Defined.

(** The identifier must read back under the same key: text that reads as a
    number comes back as that number, is not found again, and the second
    run appends the row once more. *)
Example numeric_text_id_is_appended_twice :
  let w := world_of api_numeric_id in
  let r1 := sample_run w empty_store in
  let r2 := sample_run w (run_sheet r1) in
  id_truthy hit_numeric_id = true
  /\ id_survives (reads_as empty_store) hit_numeric_id = false
  /\ get_existing_object_ids w (run_sheet r1) = Ok [KNum 12345]
  /\ map object_id (rows (run_sheet r2)) = [VStr "12345"; VStr "12345"].
Proof. repeat split. Qed.

(** C3 as stated fails: a hit without an identifier is never found in the
    rebuilt index, so the second run appends its row again. *)
Lemma anonymous_hit_is_appended_twice :
  let w := world_of api_anonymous in
  let r1 := sample_run w empty_store in
  let r2 := sample_run w (run_sheet r1) in
  run_sheet r1 = append_rows empty_store (batch_to_append (final_state r1))
  /\ List.length (batch_to_append (final_state r2)) = 1
  /\ In (EvAppend (batch_to_append (final_state r2))) (run_events r2)
  /\ List.length (rows (run_sheet r2)) = 2.
Proof.
  cbv zeta. split; [reflexivity|]. split; [reflexivity|].
  split; [|reflexivity].
  assert (E : run_events
                (sample_run (world_of api_anonymous)
                   (run_sheet (sample_run (world_of api_anonymous) empty_store)))
              = [EvRecords; EvGet 0; EvGet 10;
                 EvAppend (batch_to_append (final_state
                   (sample_run (world_of api_anonymous)
                      (run_sheet (sample_run (world_of api_anonymous)
                                    empty_store)))))])
    by reflexivity.
  rewrite E. cbn. auto.
Qed.

Lemma falsy_id_is_never_deduplicated_witness :
  let w := world_of api_anonymous in
  let sh := run_sheet (sample_run w empty_store) in
  List.length (rows sh) = 1
  /\ get_existing_object_ids w sh = Ok []
  /\ well_formed_hit hit_bare = true
  /\ id_falsy_scalar hit_bare = true
  /\ exists r id,
       build_article_row IsoParser.fromisoformat hit_bare (now w 0) = Ok r
       /\ List.length r = List.length COLUMNS
       /\ py_get hit_bare "id" VNone = Ok id
       /\ nth_error r 9 = Some id
       /\ truthy id = false
       /\ visit_hit IsoParser.fromisoformat w [] (mkstate [] 0) hit_bare
          = Ok (mkstate [r] 1).
Proof.
  intros w sh. repeat (split; [reflexivity|]).
  apply (falsy_id_is_never_deduplicated IsoParser.fromisoformat w sh []
           hit_bare (mkstate [] 0)); reflexivity.
Defined.

(** C10 as stated fails: an identifier that is an empty list is falsy, and
    the hit is well formed, but the membership test cannot hash it; the
    visit raises [TypeError], nothing is mapped, and the run ends without an
    append. *)
Lemma empty_list_id_raises :
  id_falsy hit_list_id = true
  /\ well_formed_hit hit_list_id = true
  /\ (forall idx st,
        visit_hit IsoParser.fromisoformat (world_of api_list_id) idx st
          hit_list_id = Raise TypeError)
  /\ sample_run (world_of api_list_id) empty_store
     = mkrun (Uncaught TypeError) [EvRecords; EvGet 0] empty_store.
Proof. repeat split. Qed.

(** * Further properties of the code *)

(** ** Category Normalizer *)

Lemma valid_category_not_empty (t : string) :
  valid_category t = true -> t <> "".
Proof. intros H ->. discriminate H. Qed.

Lemma normalize_categories_sorted (topics : value)
  (allowed new : list string) :
  normalize_categories topics = Ok (allowed, new) ->
  Forall (fun t => valid_category t = true) allowed
  /\ Forall (fun t => valid_category t = false) new.
Proof.
  unfold normalize_categories. destruct (negb (truthy topics)).
  - intros [= <- <-]. split; repeat constructor.
  - intros H. apply bind_Ok in H as (items & _ & H).
    injection H as Ha Hn. subst new. split.
    + assert (F : Forall (fun t => valid_category t = true)
                    (filter (fun t => in_strs t all_valid_categories)
                            (strs_of items))).
      { apply Forall_forall. intros t Ht. now apply filter_In in Ht. }
      destruct (filter _ (strs_of items)); subst allowed;
        [repeat constructor | exact F].
    + apply Forall_forall. intros t Ht. apply filter_In in Ht as [_ Ht].
      now apply negb_true_iff in Ht.
Qed.

(** Whatever the normalizer returns, on any input, every name of its first
    list is on the allow-list and no name of its second list is. *)
Theorem normalize_categories_sorts_by_allow_list (topics : value)
  (allowed new : list string) :
  normalize_categories topics = Ok (allowed, new) ->
  Forall (fun t => valid_category t = true) allowed
  /\ Forall (fun t => valid_category t = false) new.
Proof.
  intros H. destruct (normalize_categories_sorted topics allowed new H)
    as [A N].
  split; [exact A | exact N].
Qed.

Lemma normalize_categories_sorts_by_allow_list_witness :
  normalize_categories
    (VList [VStr "Strategy"; VInt 7; VStr "Robots"; VStr "Accounting"])
  = Ok (["Strategy"; "Accounting"], ["Robots"])
  /\ Forall (fun t => valid_category t = true) ["Strategy"; "Accounting"]
  /\ Forall (fun t => valid_category t = false) ["Robots"].
Proof.
  split; [reflexivity|].
  apply (normalize_categories_sorts_by_allow_list
           (VList [VStr "Strategy"; VInt 7; VStr "Robots"; VStr "Accounting"])).
  reflexivity.
Defined.

Lemma In_strs_of (s : string) (l : list value) :
  In s (strs_of l) <-> In (VStr s) l.
Proof.
  unfold strs_of. rewrite in_flat_map. split.
  - intros (t & Ht & Hs). destruct t; cbn in Hs; try tauto.
    destruct Hs as [->|[]]. exact Ht.
  - intros H. exists (VStr s). split; [exact H | now left].
Qed.

Lemma In_or_default (s : string) (f : list string) :
  (In s f -> In s (match f with [] => ["Not Defined"] | _ => f end))
  /\ (In s (match f with [] => ["Not Defined"] | _ => f end) ->
      s = "Not Defined" \/ In s f).
Proof.
  destruct f as [|a f]; split; auto.
  - intros [].
  - intros [<-|[]]. now left.
Qed.

(** On a list of topics no string entry is lost and none is invented:
    every string of the list is in one of the two results, every unknown
    name comes from the list, and every allowed name comes from the list or
    is the default. *)
Theorem normalize_categories_keeps_every_string (l : list value)
  (allowed new : list string) :
  normalize_categories (VList l) = Ok (allowed, new) ->
  (forall s, In (VStr s) l -> In s allowed \/ In s new)
  /\ (forall s, In s new -> In (VStr s) l)
  /\ (forall s, In s allowed -> s = "Not Defined" \/ In (VStr s) l).
Proof.
  unfold normalize_categories. destruct l as [|t l].
  - intros [= <- <-]. repeat split; cbn; try tauto.
    intros s [<-|[]]. now left.
  - cbn [truthy negb py_iter bind]. intros [= Ha Hn]. subst new allowed.
    set (items := t :: l) in *. split; [|split].
    + intros s Hs. apply In_strs_of in Hs.
      destruct (in_strs s all_valid_categories) eqn:V.
      * left. apply In_or_default. apply filter_In. auto.
      * right. apply filter_In. split; [exact Hs|].
        change (negb (in_strs s all_valid_categories) = true). now rewrite V.
    + intros s Hs. apply filter_In in Hs as [Hs _]. now apply In_strs_of.
    + intros s Hs. apply In_or_default in Hs as [Hs|Hs]; [now left|].
      right. apply filter_In in Hs as [Hs _]. now apply In_strs_of.
Qed.

Lemma normalize_categories_keeps_every_string_witness :
  normalize_categories (VList [VStr "Robots"; VNone; VStr "Strategy"])
  = Ok (["Strategy"], ["Robots"])
  /\ (forall s, In (VStr s) [VStr "Robots"; VNone; VStr "Strategy"] ->
                In s ["Strategy"] \/ In s ["Robots"])
  /\ (forall s, In s ["Robots"] ->
                In (VStr s) [VStr "Robots"; VNone; VStr "Strategy"])
  /\ (forall s, In s ["Strategy"] ->
                s = "Not Defined"
                \/ In (VStr s) [VStr "Robots"; VNone; VStr "Strategy"]).
Proof.
  split; [reflexivity|].
  apply (normalize_categories_keeps_every_string
           [VStr "Robots"; VNone; VStr "Strategy"]).
  reflexivity.
Defined.

(** The normalizer raises on exactly two kinds of input, a non-zero number
    and [True] (truthy, but not iterable), and then with [TypeError]. *)
Theorem normalize_categories_raises_iff (topics : value) :
  (forall e, normalize_categories topics = Raise e -> e = TypeError)
  /\ ((exists e, normalize_categories topics = Raise e)
      <-> topics = VBool true \/ exists n, n <> 0%Z /\ topics = VInt n).
Proof.
  unfold normalize_categories. split.
  - intros e H. destruct (negb (truthy topics)); [discriminate H|].
    destruct topics; cbn in H; congruence.
  - split.
    + intros [e H]. destruct (negb (truthy topics)) eqn:T; [discriminate H|].
      destruct topics as [|b|n| | |]; cbn in H, T; try discriminate.
      * destruct b; [now left | discriminate T].
      * right. exists n. split; [|reflexivity].
        intros ->. discriminate T.
    + intros [->|(n & Hn & ->)]; [cbn; eauto|].
      cbn. apply Z.eqb_neq in Hn. rewrite Hn. cbn. eauto.
Qed.

Lemma single_char_not_valid (c : ascii) :
  in_strs (String c "") all_valid_categories = false.
Proof.
  unfold in_strs, all_valid_categories. cbn.
  repeat match goal with
         | |- context [Ascii.eqb ?a ?b] => destruct (Ascii.eqb a b); cbn
         end; reflexivity.
Qed.

(** A topic field that is one string instead of a list is read character
    by character: no character is a category, so the result is the default
    category and one unknown topic per character. *)
Theorem normalize_categories_splits_a_string (s : string) :
  normalize_categories (VStr s)
  = Ok (["Not Defined"],
        map (fun c => String c "") (list_ascii_of_string s)).
Proof.
  unfold normalize_categories. destruct s as [|c s]; [reflexivity|].
  cbn [truthy String.eqb negb py_iter bind].
  assert (S : forall s', strs_of (chars s')
                         = map (fun c => String c "") (list_ascii_of_string s')).
  { induction s' as [|a s' IH]; [reflexivity|].
    unfold strs_of in *. cbn. now rewrite IH. }
  rewrite S.
  assert (F : forall cs : list ascii,
             filter (fun t => in_strs t all_valid_categories)
                    (map (fun c => String c "") cs) = []
             /\ filter (fun t => negb (in_strs t all_valid_categories))
                       (map (fun c => String c "") cs)
                = map (fun c => String c "") cs).
  { induction cs as [|a cs [IH1 IH2]]; [split; reflexivity|].
    cbn [map filter]. rewrite single_char_not_valid. cbn [negb].
    now rewrite IH1, IH2. }
  destruct (F (list_ascii_of_string (String c s))) as [-> ->]. reflexivity.
Qed.

(** ** Record Mapper, cell by cell *)

Lemma all_strs_of_strings (names : list string) :
  all_strs (map VStr names) = Ok names.
Proof.
  induction names as [|n names IH]; [reflexivity|].
  cbn. now rewrite IH.
Qed.

Lemma all_strs_rejects (l : list value) :
  forallb is_str l = false -> all_strs l = Raise TypeError.
Proof.
  induction l as [|v l IH]; cbn; [discriminate|].
  destruct v; cbn; try reflexivity. intros H. now rewrite (IH H).
Qed.

Lemma join_strs_not_empty (sep a : string) (l : list string) :
  a <> "" -> join_strs sep (a :: l) <> "".
Proof.
  intros Ha. destruct a as [|c a]; [congruence|].
  destruct l; cbn; discriminate.
Qed.

(** An author list of names is joined as it is, whatever the byline holds
    (the nested display is not even read). *)
Theorem author_list_wins_over_byline (hit : value) (names : list string) :
  field hit "author" = Some (VList (map VStr names)) ->
  names <> [] ->
  author_field hit = Ok (join_strs ", " names).
Proof.
  intros F N. destruct hit as [| | | | |d]; try discriminate F.
  cbn [field] in F. unfold author_field, py_or. cbn [py_get bind]. rewrite F.
  destruct names as [|n names]; [congruence|].
  cbn [map truthy negb bind]. unfold py_join. cbn [py_iter bind].
  change (VStr n :: map VStr names) with (map VStr (n :: names)).
  now rewrite all_strs_of_strings.
Qed.

Lemma author_list_wins_over_byline_witness :
  field (VDict [("author", VList (map VStr ["A. Author"; "B. Writer"]));
                ("display", VNone)]) "author"
  = Some (VList (map VStr ["A. Author"; "B. Writer"]))
  /\ author_field (VDict [("author", VList (map VStr ["A. Author"; "B. Writer"]));
                          ("display", VNone)])
     = Ok "A. Author, B. Writer".
Proof.
  split; [reflexivity|].
  apply (author_list_wins_over_byline
           (VDict [("author", VList (map VStr ["A. Author"; "B. Writer"]));
                   ("display", VNone)])
           ["A. Author"; "B. Writer"]); [reflexivity | discriminate].
Defined.

Lemma labels_of_items (items : list value) :
  forallb (fun item => absent_or is_str (field item "label") && is_dict item)%bool
          items = true ->
  labels items = Ok (map (fun item => VStr (label_of item)) items).
Proof.
  induction items as [|item items IH]; cbn [forallb labels map];
    [reflexivity|].
  intros H. apply andb_prop in H as [Hi H]. apply andb_prop in Hi as [Hl Hd].
  destruct item as [| | | | |d]; try discriminate Hd.
  rewrite (IH H). unfold label_of. cbn [py_get bind field] in *.
  destruct (assoc "label" d) as [l|]; [|reflexivity].
  cbn [absent_or] in Hl. now destruct l.
Qed.

(** With no author list (absent, null or empty) the Author cell comes from
    the nested byline: the labels of its entries, an entry without a label
    counting as the empty string, joined with [", "]; a byline that is not a
    list gives the empty string. *)
Theorem author_falls_back_to_byline (hit display byline : value) :
  is_dict hit = true ->
  absent_or (fun a => negb (truthy a)) (field hit "author") = true ->
  field hit "display" = Some display ->
  field display "byline" = Some byline ->
  (forall items,
      byline = VList items ->
      forallb (fun item => absent_or is_str (field item "label")
                           && is_dict item)%bool items = true ->
      author_field hit = Ok (join_strs ", " (map label_of items)))
  /\ (is_list byline = false -> author_field hit = Ok "").
Proof.
  intros Hd Ha Fd Fb.
  destruct hit as [| | | | |d]; try discriminate Hd.
  destruct display as [| | | | |dd]; try discriminate Fb.
  cbn [field] in *.
  assert (A : py_or (match assoc "author" d with
                     | Some v => v
                     | None => VNone
                     end) (VList []) = VList []).
  { unfold py_or. destruct (assoc "author" d) as [a|]; [|reflexivity].
    cbn [absent_or] in Ha. apply negb_true_iff in Ha. now rewrite Ha. }
  unfold author_field. cbn [py_get bind]. rewrite A. cbn [truthy negb].
  rewrite Fd. cbn [py_get bind]. rewrite Fb. split.
  - intros items -> Hi. rewrite (labels_of_items items Hi). cbn [bind].
    unfold py_join. cbn [py_iter bind].
    rewrite <- (map_map label_of VStr), all_strs_of_strings. reflexivity.
  - intros L. destruct byline; try discriminate L; reflexivity.
Qed.

Lemma author_falls_back_to_byline_witness :
  author_field hit_dated = Ok "A. Author".
Proof.
  apply (proj1 (author_falls_back_to_byline hit_dated
           (VDict [("thumbnail", VDict [("src", VStr "//img.example.com/x.jpg")]);
                   ("byline", VList [VDict [("label", VStr "A. Author")]])])
           (VList [VDict [("label", VStr "A. Author")]])
           eq_refl eq_refl eq_refl eq_refl)
           [VDict [("label", VStr "A. Author")]]);
    reflexivity.
Defined.

(** The Faculty cell joins a list of names, is empty when the field is
    absent or is not a list, and a list holding anything but strings makes
    the mapper raise [TypeError]. *)
Theorem faculty_field_by_cases (hit : value) :
  is_dict hit = true ->
  match field hit "faculty" with
  | None => faculty_field hit = Ok ""
  | Some (VList l) =>
      (forall names, l = map VStr names ->
                     faculty_field hit = Ok (join_strs ", " names))
      /\ (forallb is_str l = false -> faculty_field hit = Raise TypeError)
  | Some _ => faculty_field hit = Ok ""
  end.
Proof.
  intros Hd. destruct hit as [| | | | |d]; try discriminate Hd.
  unfold faculty_field. cbn [field py_get bind].
  destruct (assoc "faculty" d) as [f|]; [|reflexivity].
  destruct f; try reflexivity. cbn [is_list]. unfold py_join.
  cbn [py_iter bind]. split.
  - intros names ->. now rewrite all_strs_of_strings.
  - intros H. now rewrite (all_strs_rejects l H).
Qed.

Lemma faculty_field_by_cases_witness :
  faculty_field (VDict [("faculty", VList [VStr "J. Doe"; VNone])])
  = Raise TypeError.
Proof.
  apply (faculty_field_by_cases
           (VDict [("faculty", VList [VStr "J. Doe"; VNone])]) eq_refl).
  reflexivity.
Defined.

(** The Image URL is never protocol-relative: whatever the thumbnail
    source, the cell does not start with ["//"]. *)
Theorem image_url_never_protocol_relative (hit : value) (u : string) :
  image_url_field hit = Ok u -> startswith "//" u = false.
Proof.
  unfold image_url_field. intros H. apply bind_Ok in H as (thumb & _ & H).
  destruct thumb; try discriminate H.
  destruct (startswith "//" s) eqn:E; injection H as <-;
    [reflexivity | exact E].
Qed.

Lemma image_url_never_protocol_relative_witness :
  image_url_field hit_dated = Ok "https://img.example.com/x.jpg"
  /\ startswith "//" "https://img.example.com/x.jpg" = false.
Proof.
  split; [reflexivity|].
  apply (image_url_never_protocol_relative hit_dated). reflexivity.
Defined.

Section RowFacts.

Variable fromisoformat : string -> option date.

Lemma build_article_row_categories (hit : value) (ts : string) (r : row) :
  build_article_row fromisoformat hit ts = Ok r ->
  exists topic allowed news,
    normalize_categories topic = Ok (allowed, news)
    /\ nth_error r 7 = Some (VStr (join_strs ", " allowed))
    /\ nth_error r 8 = Some (VStr (join_strs ", " news)).
Proof.
  unfold build_article_row. intros H.
  bind_inv H. destruct a6 as [allowed news]. bind_inv H. injection H as <-.
  exists a5, allowed, news. split; [assumption|]. split; [reflexivity|].
  now destruct news.
Qed.

(** The Category cell of a row is never the empty string, and every name
    joined in it is on the allow-list. *)
Theorem category_cell_never_empty (hit : value) (ts : string) (r : row) :
  build_article_row fromisoformat hit ts = Ok r ->
  exists allowed,
    nth_error r 7 = Some (VStr (join_strs ", " allowed))
    /\ join_strs ", " allowed <> ""
    /\ Forall (fun t => valid_category t = true) allowed.
Proof.
  intros H. apply build_article_row_categories in H
    as (topic & allowed & news & N & C & _).
  exists allowed. split; [exact C|].
  pose proof N as V.
  apply normalize_categories_sorted in V as [V _].
  split; [|exact V].
  destruct allowed as [|a allowed].
  - unfold normalize_categories in N.
    destruct (negb (truthy topic)); [discriminate N|].
    apply bind_Ok in N as (items & _ & N). injection N as N _.
    now destruct (filter _ (strs_of items)).
  - apply join_strs_not_empty. apply valid_category_not_empty.
    now inversion V.
Qed.


End RowFacts.

Lemma category_cell_never_empty_witness :
  build_article_row IsoParser.fromisoformat hit_bare "t"
  = Ok [ VStr "Untitled"; VStr ""; VStr ""; VStr ""; VStr ""; VStr "";
         VStr ""; VStr "Not Defined"; VStr ""; VNone; VStr "t" ]
  /\ exists allowed,
       nth_error
         [ VStr "Untitled"; VStr ""; VStr ""; VStr ""; VStr ""; VStr "";
           VStr ""; VStr "Not Defined"; VStr ""; VNone; VStr "t" ] 7
       = Some (VStr (join_strs ", " allowed))
       /\ join_strs ", " allowed <> ""
       /\ Forall (fun t => valid_category t = true) allowed.
Proof.
  split; [reflexivity|].
  apply (category_cell_never_empty IsoParser.fromisoformat hit_bare "t").
  reflexivity.
Defined.


(** ** Existing-Key Index, as a set *)

Lemma In_stored_keys (records : list value) (k : key) :
  In k (stored_keys records) <->
  exists r oid, In r records
                /\ py_get r "Object ID" VNone = Ok oid
                /\ truthy oid = true
                /\ hash_key oid = Ok k.
Proof.
  unfold stored_keys. rewrite in_flat_map. split.
  - intros (r & Hr & Hk). exists r.
    destruct (py_get r "Object ID" VNone) as [oid|e]; [|destruct Hk].
    exists oid. destruct (truthy oid); [|destruct Hk].
    destruct (hash_key oid) as [k'|e]; [|destruct Hk].
    destruct Hk as [->|[]]. auto.
  - intros (r & oid & Hr & G & T & Hk). exists r. split; [exact Hr|].
    rewrite G, T, Hk. now left.
Qed.

Lemma key_add_NoDup (k : key) (s : list key) :
  NoDup s -> NoDup (key_add k s).
Proof.
  intros N. unfold key_add. destruct (key_in k s) eqn:E; [exact N|].
  apply NoDup_app; [exact N | repeat constructor; intros [] |].
  intros a Ha [<-|[]]. apply key_in_In in Ha. congruence.
Qed.

Lemma collect_ids_NoDup (records : list value) :
  forall acc idx,
    NoDup acc -> collect_ids records acc = Ok idx -> NoDup idx.
Proof.
  induction records as [|r records IH]; cbn [collect_ids]; intros acc idx N H.
  - now injection H as <-.
  - apply bind_Ok in H as (oid & _ & H). destruct (truthy oid).
    + apply bind_Ok in H as (k & _ & H).
      apply (IH _ _ (key_add_NoDup k acc N) H).
    + apply (IH _ _ N H).
Qed.

(** The index is a set: it holds no key twice, and it holds a key exactly
    when some record of the store has a truthy Object ID with that key. *)
Theorem index_is_the_set_of_stored_ids (w : world) (sh : sheet)
  (idx : list key) :
  get_existing_object_ids w sh = Ok idx ->
  NoDup idx
  /\ forall k, In k idx <-> In k (stored_keys (get_all_records sh)).
Proof.
  unfold get_existing_object_ids.
  destruct (records_readable w); [|discriminate]. intros H. split.
  - apply (collect_ids_NoDup _ [] idx (NoDup_nil _) H).
  - intros k. rewrite <- key_in_In, In_stored_keys.
    rewrite (collect_ids_spec _ _ _ H k). split; [|now right].
    intros [K|K]; [discriminate K | exact K].
Qed.

Lemma index_is_the_set_of_stored_ids_witness :
  get_existing_object_ids (world_of api_one_page) store_with_wk2
  = Ok [KStr "wk-2"]
  /\ NoDup [KStr "wk-2"]
  /\ forall k, In k [KStr "wk-2"]
               <-> In k (stored_keys (get_all_records store_with_wk2)).
Proof.
  split; [reflexivity|].
  apply (index_is_the_set_of_stored_ids (world_of api_one_page)
           store_with_wk2).
  reflexivity.
Defined.

Lemma assoc_combine_missing (k : string) (hdr : list string) :
  ~ In k hdr -> forall cells, assoc k (combine hdr cells) = None.
Proof.
  induction hdr as [|h hdr IH]; intros N cells; [reflexivity|].
  destruct cells as [|c cells]; [reflexivity|]. cbn [combine assoc].
  destruct (h =? k) eqn:E.
  - apply String.eqb_eq in E. subst h. destruct N. now left.
  - apply IH. intros I. apply N. now right.
Qed.

(** A sheet whose header has no [Object ID] column gives an empty index,
    whatever its rows hold: nothing will be taken for known. *)
Theorem index_empty_without_id_column (w : world) (sh : sheet) :
  ~ In "Object ID" (header sh) ->
  records_readable w = true ->
  get_existing_object_ids w sh = Ok [].
Proof.
  intros N R. unfold get_existing_object_ids, get_all_records. rewrite R.
  induction (rows sh) as [|r rs IH]; [reflexivity|].
  cbn [map collect_ids]. unfold record_of at 1. cbn [py_get bind].
  rewrite (assoc_combine_missing _ _ N). cbn [truthy]. exact IH.
Qed.

Lemma index_empty_without_id_column_witness :
  ~ In "Object ID" (header store_without_id_column)
  /\ get_existing_object_ids (world_of api_one_page) store_without_id_column
     = Ok [].
Proof.
  assert (N : ~ In "Object ID" (header store_without_id_column)).
  { cbn. intros [H|[H|[]]]; discriminate H. }
  split; [exact N|].
  apply (index_empty_without_id_column (world_of api_one_page)
           store_without_id_column N).
  reflexivity.
Defined.

(** ** The shape of a run *)

Section RunFacts.

Variable fromisoformat : string -> option date.
Variable json_loads : string -> option value.

Lemma paging_fetches_prefix (w : world) (idx : list key)
  (offsets : list nat) :
  forall st evs r,
    paging fromisoformat w idx offsets st = (evs, r) ->
    exists fetched rest,
      evs = map EvGet fetched /\ offsets = fetched ++ rest.
Proof.
  induction offsets as [|offset rest IH]; cbn [paging]; intros st evs r H.
  - injection H as <- _. now exists [], [].
  - destruct (requests_get w offset) as [|body].
    + injection H as <- _. now exists [offset], rest.
    + destruct (visit_page fromisoformat w idx body st) as [[st' []]|e].
      * injection H as <- _. now exists [offset], rest.
      * destruct (paging fromisoformat w idx rest st') as [evs' r'] eqn:P.
        injection H as <- _.
        destruct (IH _ _ _ P) as (fetched & rest' & -> & ->).
        now exists (offset :: fetched), rest'.
      * injection H as <- _. now exists [offset], rest.
Qed.

(** A run talks to the outside in a fixed order.  Either the connection
    failed and nothing happened; or the records are read once, then pages
    are requested at the first offsets of [0, 10, 20, 30, 40] in order (at
    most five requests), and then at most one append is made, last, of the
    whole batch, and only of a batch that is not empty. *)
Theorem run_events_shape (w : world) (sh : sheet) :
  (exists e, run_outcome (fetch_and_upload fromisoformat json_loads w sh)
             = InitFailed e
             /\ run_events (fetch_and_upload fromisoformat json_loads w sh) = [])
  \/ exists fetched rest,
       py_range max_articles page_size = fetched ++ rest
       /\ List.length fetched <= 5
       /\ (run_events (fetch_and_upload fromisoformat json_loads w sh)
           = EvRecords :: map EvGet fetched
           \/ exists st,
                run_outcome (fetch_and_upload fromisoformat json_loads w sh)
                = Finished st
                /\ batch_to_append st <> []
                /\ run_events (fetch_and_upload fromisoformat json_loads w sh)
                   = EvRecords :: map EvGet fetched
                     ++ [EvAppend (batch_to_append st)]).
Proof.
  unfold fetch_and_upload.
  destruct (init_sheet json_loads w) as [[]|e];
    [|left; exists e; split; reflexivity].
  right.
  destruct (get_existing_object_ids w sh) as [idx|e].
  2:{ exists [], (py_range max_articles page_size).
      split; [reflexivity|]. split; [cbn; lia | now left]. }
  destruct (paging fromisoformat w idx _ _) as [evs r] eqn:Pg.
  destruct (paging_fetches_prefix _ _ _ _ _ _ Pg) as (fetched & rest & -> & E).
  exists fetched, rest. split; [exact E|]. split.
  { apply (f_equal (@List.length nat)) in E. rewrite length_app in E.
    change (List.length (py_range max_articles page_size)) with 5 in E. lia. }
  destruct r as [st|e]; [|now left].
  unfold upload. destruct (batch_to_append st) as [|r0 b] eqn:B;
    cbn [run_events run_outcome].
  - left. now rewrite app_nil_r.
  - right. exists st. rewrite B.
    split; [reflexivity|]. split; [discriminate | reflexivity].
Qed.

(** A run only ever adds to the store: the header is kept, the rows that
    were there stay first and unchanged, and what is added is nothing or,
    after an accepted append of a finished run, exactly its batch. *)
Theorem run_only_extends_store (w : world) (sh : sheet) :
  header (run_sheet (fetch_and_upload fromisoformat json_loads w sh))
  = header sh
  /\ exists added,
       rows (run_sheet (fetch_and_upload fromisoformat json_loads w sh))
       = rows sh ++ added
       /\ (added = []
           \/ exists st,
                run_outcome (fetch_and_upload fromisoformat json_loads w sh)
                = Finished st
                /\ added = batch_to_append st
                /\ append_accepted w = true).
Proof.
  unfold fetch_and_upload.
  destruct (init_sheet json_loads w) as [[]|e].
  2:{ cbn. split; [reflexivity|]. exists []. rewrite app_nil_r. auto. }
  destruct (get_existing_object_ids w sh) as [idx|e].
  2:{ cbn. split; [reflexivity|]. exists []. rewrite app_nil_r. auto. }
  destruct (paging fromisoformat w idx _ _) as [evs [st|e]].
  2:{ cbn. split; [reflexivity|]. exists []. rewrite app_nil_r. auto. }
  unfold upload. destruct (batch_to_append st) as [|r0 b] eqn:B.
  { cbn. split; [reflexivity|]. exists []. rewrite app_nil_r. auto. }
  destruct (append_accepted w) eqn:A; cbn.
  - split; [reflexivity|]. exists (r0 :: b). split; [reflexivity|].
    right. exists st. rewrite B. auto.
  - split; [reflexivity|]. exists []. rewrite app_nil_r. auto.
Qed.

Lemma visit_hits_with_append (accepted : bool) (w : world) (idx : list key)
  (hits : list value) :
  forall st,
    visit_hits fromisoformat (with_append accepted w) idx hits st
    = visit_hits fromisoformat w idx hits st.
Proof.
  induction hits as [|hit hits IH]; intros st; cbn [visit_hits];
    [reflexivity|].
  change (visit_hit fromisoformat (with_append accepted w) idx st hit)
    with (visit_hit fromisoformat w idx st hit).
  destruct (visit_hit fromisoformat w idx st hit); cbn [bind];
    [apply IH | reflexivity].
Qed.

Lemma paging_with_append (accepted : bool) (w : world) (idx : list key)
  (offsets : list nat) :
  forall st,
    paging fromisoformat (with_append accepted w) idx offsets st
    = paging fromisoformat w idx offsets st.
Proof.
  induction offsets as [|offset rest IH]; intros st; cbn [paging];
    [reflexivity|].
  change (requests_get (with_append accepted w) offset)
    with (requests_get w offset).
  destruct (requests_get w offset) as [|body]; [reflexivity|].
  unfold visit_page.
  destruct (py_get body "hits" (VList [])) as [hits|e]; cbn [bind];
    [|reflexivity].
  destruct (negb (truthy hits)); [reflexivity|].
  destruct (py_iter hits) as [items|e]; cbn [bind]; [|reflexivity].
  rewrite visit_hits_with_append.
  destruct (visit_hits fromisoformat w idx items st) as [st1|e]; cbn [bind];
    [|reflexivity].
  destruct (max_articles <=? articles_checked st1)%nat; [reflexivity|].
  now rewrite IH.
Qed.

(** A refused append is caught and not escalated: the run whose append the
    store refuses ends as the same run with an accepted append does (in
    particular it finishes when that one finishes) and does the same things
    in the same order, its one append attempt included; only the store is
    left exactly as it was. *)
Theorem rejected_append_changes_nothing (w : world) (sh : sheet) :
  run_outcome (fetch_and_upload fromisoformat json_loads
                 (with_append false w) sh)
  = run_outcome (fetch_and_upload fromisoformat json_loads
                   (with_append true w) sh)
  /\ run_events (fetch_and_upload fromisoformat json_loads
                   (with_append false w) sh)
     = run_events (fetch_and_upload fromisoformat json_loads
                     (with_append true w) sh)
  /\ run_sheet (fetch_and_upload fromisoformat json_loads
                  (with_append false w) sh) = sh.
Proof.
  unfold fetch_and_upload.
  change (init_sheet json_loads (with_append false w))
    with (init_sheet json_loads w).
  change (init_sheet json_loads (with_append true w))
    with (init_sheet json_loads w).
  change (get_existing_object_ids (with_append false w) sh)
    with (get_existing_object_ids w sh).
  change (get_existing_object_ids (with_append true w) sh)
    with (get_existing_object_ids w sh).
  destruct (init_sheet json_loads w) as [[]|e]; [|repeat split].
  destruct (get_existing_object_ids w sh) as [idx|e]; [|repeat split].
  rewrite !paging_with_append.
  destruct (paging fromisoformat w idx _ _) as [evs [st|e]]; [|repeat split].
  unfold upload. cbn [with_append append_accepted].
  destruct (batch_to_append st); repeat split.
Qed.

(** An exception that leaves [fetch_and_upload] takes the batch with it:
    the store is as it was and no append was attempted. *)
Theorem uncaught_exception_uploads_nothing (w : world) (sh : sheet)
  (e : exn) :
  run_outcome (fetch_and_upload fromisoformat json_loads w sh) = Uncaught e ->
  run_sheet (fetch_and_upload fromisoformat json_loads w sh) = sh
  /\ forall b,
       ~ In (EvAppend b)
            (run_events (fetch_and_upload fromisoformat json_loads w sh)).
Proof.
  unfold fetch_and_upload.
  destruct (init_sheet json_loads w) as [[]|e0]; [|discriminate].
  destruct (get_existing_object_ids w sh) as [idx|e0].
  2:{ intros _. split; [reflexivity|]. intros b [[=]|[]]. }
  destruct (paging fromisoformat w idx _ _) as [evs [st|e0]] eqn:Pg.
  { destruct (upload w sh st). discriminate. }
  intros _. split; [reflexivity|]. intros b. cbn.
  destruct (paging_events _ _ _ _ _ _ _ Pg) as [fetched ->].
  intros [[=]|H]. apply in_map_iff in H as (o & [=] & _).
Qed.

End RunFacts.

Example rejected_append_still_finishes :
  world_rejecting_append = with_append false (world_of api_one_page)
  /\ List.length
       (batch_to_append
          (final_state (sample_run world_rejecting_append store_with_wk2))) = 2
  /\ run_events (sample_run world_rejecting_append store_with_wk2)
     = [EvRecords; EvGet 0; EvGet 10;
        EvAppend (batch_to_append
                    (final_state
                       (sample_run world_rejecting_append store_with_wk2)))]
  /\ run_sheet (sample_run world_rejecting_append store_with_wk2)
     = store_with_wk2.
Proof. repeat split. Qed.

Lemma uncaught_exception_uploads_nothing_witness :
  run_outcome (sample_run (world_of api_broken_second_page) empty_store)
  = Uncaught AttributeError
  /\ run_sheet (sample_run (world_of api_broken_second_page) empty_store)
     = empty_store
  /\ forall b,
       ~ In (EvAppend b)
            (run_events (sample_run (world_of api_broken_second_page)
                           empty_store)).
Proof.
  split; [reflexivity|].
  apply (uncaught_exception_uploads_nothing IsoParser.fromisoformat
           sample_json_loads (world_of api_broken_second_page) empty_store
           AttributeError).
  reflexivity.
Defined.

(** ** Where paging ends *)

Section PagingFacts.

Variable fromisoformat : string -> option date.
Variable json_loads : string -> option value.

Lemma paging_through_app (w : world) (idx : list key)
  (before more : list nat) (st st1 : state) :
  pages_through fromisoformat w idx before st st1 ->
  paging fromisoformat w idx (before ++ more) st
  = (map EvGet before ++ fst (paging fromisoformat w idx more st1),
     snd (paging fromisoformat w idx more st1)).
Proof.
  intros T. induction T as [st|o rest body st sta stb G V T IH];
    cbn [app paging map].
  - now destruct (paging fromisoformat w idx more st).
  - rewrite G, V, IH. reflexivity.
Qed.

(** A page without hits (an empty list, [null], or no [hits] key at all)
    ends paging as the natural end of the data: no later page is requested,
    the run finishes, and the upload phase runs on what the earlier pages
    left. *)
Theorem empty_page_ends_paging (w : world) (sh : sheet) (idx : list key)
  (before : list nat) (offset : nat) (after : list nat) (st : state)
  (body hits : value) :
  init_sheet json_loads w = Ok tt ->
  get_existing_object_ids w sh = Ok idx ->
  py_range max_articles page_size = before ++ offset :: after ->
  pages_through fromisoformat w idx before (mkstate [] 0) st ->
  requests_get w offset = Json body ->
  py_get body "hits" (VList []) = Ok hits ->
  truthy hits = false ->
  run_outcome (fetch_and_upload fromisoformat json_loads w sh) = Finished st
  /\ run_events (fetch_and_upload fromisoformat json_loads w sh)
     = EvRecords :: map EvGet (before ++ [offset]) ++ fst (upload w sh st)
  /\ run_sheet (fetch_and_upload fromisoformat json_loads w sh)
     = snd (upload w sh st).
Proof.
  intros I X R T G Hh F.
  unfold fetch_and_upload. rewrite I, X, R.
  rewrite (paging_through_app w idx before (offset :: after) _ st T).
  cbn [paging]. rewrite G. unfold visit_page. rewrite Hh. cbn [bind].
  rewrite F. cbn [negb fst snd].
  destruct (upload w sh st) as [up sh']. cbn.
  rewrite map_app. now rewrite <- !app_assoc.
Qed.

(** An exception raised while a page is visited (a hit that is not an
    object, an identifier that cannot be hashed, a field the mapper cannot
    read) is not caught by the page loop: the run ends there, no later page
    is requested, and the rows the earlier pages accumulated are never
    uploaded. *)
Theorem page_exception_discards_the_batch (w : world) (sh : sheet)
  (idx : list key) (before : list nat) (offset : nat) (after : list nat)
  (st : state) (body : value) (e : exn) :
  init_sheet json_loads w = Ok tt ->
  get_existing_object_ids w sh = Ok idx ->
  py_range max_articles page_size = before ++ offset :: after ->
  pages_through fromisoformat w idx before (mkstate [] 0) st ->
  requests_get w offset = Json body ->
  visit_page fromisoformat w idx body st = Raise e ->
  fetch_and_upload fromisoformat json_loads w sh
  = mkrun (Uncaught e) (EvRecords :: map EvGet (before ++ [offset])) sh.
Proof.
  intros I X R T G V.
  unfold fetch_and_upload. rewrite I, X, R.
  rewrite (paging_through_app w idx before (offset :: after) _ st T).
  cbn [paging]. rewrite G, V. cbn [fst snd]. now rewrite map_app.
Qed.

(** *** The page budget *)

Lemma paging_budget (w : world) (idx : list key) :
  (forall offset,
      List.length (page_hits (requests_get w offset)) <= page_size) ->
  forall offsets st evs st',
    paging fromisoformat w idx offsets st = (evs, Ok st') ->
    articles_checked st + page_size * List.length offsets <= max_articles ->
    articles_checked st' <= max_articles.
Proof.
  intros Bound. induction offsets as [|offset rest IH];
    cbn [paging List.length]; intros st evs st' H B.
  - injection H as _ <-. lia.
  - specialize (Bound offset).
    destruct (requests_get w offset) as [|body].
    + injection H as _ <-. lia.
    + destruct (visit_page fromisoformat w idx body st) as [[st1 brk]|e] eqn:V;
        [|discriminate H].
      assert (C : articles_checked st1 <= articles_checked st + page_size).
      { unfold visit_page in V. unfold page_hits in Bound.
        apply bind_Ok in V as (hits & G & V). rewrite G in Bound.
        cbn [bind] in Bound. destruct (negb (truthy hits)).
        - assert (st1 = st) by congruence. subst st1. lia.
        - apply bind_Ok in V as (items & It & V). rewrite It in Bound.
          apply bind_Ok in V as (st1' & Vh & V).
          assert (st1' = st1) by congruence. subst st1'.
          apply visit_hits_count in Vh. lia. }
      destruct brk.
      * injection H as _ <-. unfold page_size, max_articles in *. lia.
      * destruct (paging fromisoformat w idx rest st1) as [evs1 r1] eqn:Pg.
        injection H as _ ->. apply (IH st1 evs1 st' Pg).
        unfold page_size, max_articles in *. lia.
Qed.

(** When no page holds more than [page_size] hits, a finished run has
    checked, and queued, at most [max_articles] articles. *)
Theorem checked_within_budget (w : world) (sh : sheet) (st : state) :
  (forall offset,
      List.length (page_hits (requests_get w offset)) <= page_size) ->
  run_outcome (fetch_and_upload fromisoformat json_loads w sh) = Finished st ->
  articles_checked st <= max_articles
  /\ List.length (batch_to_append st) <= max_articles.
Proof.
  intros Bound H. apply run_finished in H as (idx & evs & _ & _ & Pg & _).
  assert (C : articles_checked st <= max_articles).
  { apply (paging_budget w idx Bound _ _ _ _ Pg). vm_compute. lia. }
  split; [exact C|].
  assert (B : balanced st).
  { apply (paging_keeps fromisoformat w idx balanced
             (fun s hit s' => visit_hit_balanced fromisoformat w idx s s' hit)
             _ (mkstate [] 0) _ _ eq_refl Pg). }
  unfold balanced in B. lia.
Qed.

End PagingFacts.

Lemma empty_page_ends_paging_witness :
  let w := world_of api_one_page in
  let st := final_state (sample_run w store_with_wk2) in
  run_outcome (sample_run w store_with_wk2) = Finished st
  /\ run_events (sample_run w store_with_wk2)
     = EvRecords :: map EvGet ([0] ++ [10]) ++ fst (upload w store_with_wk2 st)
  /\ run_sheet (sample_run w store_with_wk2)
     = snd (upload w store_with_wk2 st).
Proof.
  intros w st.
  apply (empty_page_ends_paging IsoParser.fromisoformat sample_json_loads
           w store_with_wk2 [KStr "wk-2"] [0] 10 [20; 30; 40] st
           (VDict [("hits", VList [])]) (VList []));
    try reflexivity.
  eapply through_cons; [reflexivity | reflexivity | apply through_nil].
Defined.

Lemma page_exception_discards_the_batch_witness :
  let w := world_of api_broken_second_page in
  List.length
    (batch_to_append
       (fst (match visit_page IsoParser.fromisoformat w []
                     (VDict [("hits", VList [hit_dated])]) (mkstate [] 0) with
             | Ok p => p
             | Raise _ => (mkstate [] 0, true)
             end))) = 1
  /\ sample_run w empty_store
     = mkrun (Uncaught AttributeError) [EvRecords; EvGet 0; EvGet 10]
             empty_store.
Proof.
  intros w. split; [reflexivity|].
  apply (page_exception_discards_the_batch IsoParser.fromisoformat
           sample_json_loads w empty_store [] [0] 10 [20; 30; 40]
           (fst (match visit_page IsoParser.fromisoformat w []
                         (VDict [("hits", VList [hit_dated])])
                         (mkstate [] 0) with
                 | Ok p => p
                 | Raise _ => (mkstate [] 0, true)
                 end))
           (VDict [("hits", VList [hit_null_display])]) AttributeError);
    try reflexivity.
  eapply through_cons; [reflexivity | reflexivity | apply through_nil].
Defined.

Lemma checked_within_budget_witness :
  let w := world_of api_one_page in
  let st := final_state (sample_run w store_with_wk2) in
  articles_checked st <= max_articles
  /\ List.length (batch_to_append st) <= max_articles.
Proof.
  intros w st.
  apply (checked_within_budget IsoParser.fromisoformat sample_json_loads
           w store_with_wk2 st); [|reflexivity].
  intros [|n]; [cbn; unfold page_size; lia|].
  unfold w, world_of, requests_get, api_one_page.
  destruct n as [|n]; cbn; unfold page_size; lia.
Defined.

(** ** What a batch holds *)

Section BatchFacts.

Variable fromisoformat : string -> option date.
Variable json_loads : string -> option value.

Lemma visit_hits_keys (w : world) (idx : list key) (hits : list value) :
  forall st st',
    visit_hits fromisoformat w idx hits st = Ok st' ->
    map row_key (batch_to_append st')
    = map row_key (batch_to_append st)
      ++ filter (unknown_to idx) (map hit_key hits).
Proof.
  induction hits as [|hit hits IH]; cbn [visit_hits map filter];
    intros st st' H.
  - injection H as <-. now rewrite app_nil_r.
  - apply bind_Ok in H as (st1 & V & H). rewrite (IH _ _ H).
    apply visit_hit_cases in V as (k & Hk & [[Hin ->]|(Hin & r & Hr & ->)]);
      rewrite Hk; cbn [unknown_to]; rewrite Hin; cbn [negb].
    + reflexivity.
    + cbn [batch_to_append]. rewrite map_app, <- app_assoc. cbn [map app].
      now rewrite (built_row_key fromisoformat _ _ _ _ Hk Hr).
Qed.

Lemma page_hits_falsy (body hits : value) :
  py_get body "hits" (VList []) = Ok hits ->
  truthy hits = false ->
  page_hits (Json body) = [].
Proof.
  intros G F. unfold page_hits. rewrite G. cbn [bind].
  destruct hits as [|b|n|s|l|d]; try reflexivity; cbn in F |- *.
  - destruct s; [reflexivity | discriminate F].
  - destruct l; [reflexivity | discriminate F].
  - destruct d; [reflexivity | discriminate F].
Qed.

Lemma paging_keys (w : world) (idx : list key) (offsets : list nat) :
  forall st evs st',
    paging fromisoformat w idx offsets st = (evs, Ok st') ->
    exists fetched rest,
      evs = map EvGet fetched
      /\ offsets = fetched ++ rest
      /\ map row_key (batch_to_append st')
         = map row_key (batch_to_append st)
           ++ filter (unknown_to idx) (map hit_key (served_hits w fetched)).
Proof.
  induction offsets as [|offset rest IH]; cbn [paging]; intros st evs st' H.
  - injection H as <- <-. exists [], []. cbn. now rewrite app_nil_r.
  - destruct (requests_get w offset) as [|body] eqn:G.
    + injection H as <- <-. exists [offset], rest.
      cbn [served_hits flat_map]. rewrite G. cbn. now rewrite app_nil_r.
    + destruct (visit_page fromisoformat w idx body st) as [[st1 brk]|e] eqn:V;
        [|discriminate H].
      assert (K : map row_key (batch_to_append st1)
                  = map row_key (batch_to_append st)
                    ++ filter (unknown_to idx)
                         (map hit_key (page_hits (Json body)))).
      { unfold visit_page in V. apply bind_Ok in V as (hits & Gh & V).
        destruct (truthy hits) eqn:T; cbn [negb] in V.
        - apply bind_Ok in V as (items & It & V).
          apply bind_Ok in V as (st1' & Vh & V).
          assert (st1' = st1) by congruence. subst st1'.
          unfold page_hits. rewrite Gh. cbn [bind]. rewrite It.
          exact (visit_hits_keys w idx items st st1 Vh).
        - assert (st1 = st) by congruence. subst st1.
          rewrite (page_hits_falsy body hits Gh T). cbn.
          now rewrite app_nil_r. }
      destruct brk.
      * injection H as <- <-. exists [offset], rest.
        cbn [served_hits flat_map]. rewrite G, app_nil_r.
        repeat split. exact K.
      * destruct (paging fromisoformat w idx rest st1) as [evs1 r1] eqn:Pg.
        injection H as <- ->.
        destruct (IH _ _ _ Pg) as (fetched & rest' & -> & -> & E).
        exists (offset :: fetched), rest'.
        cbn [served_hits flat_map]. rewrite G.
        repeat split. rewrite E, K, map_app, filter_app.
        now rewrite <- app_assoc.
Qed.

(** The batch of a finished run holds, in the order the API served them
    over the pages it requested, one row for each hit whose identifier is
    not in the index built at the start, and nothing else; the count
    reported is the number of those hits. *)
Theorem batch_lists_the_unknown_hits_in_order (w : world) (sh : sheet)
  (idx : list key) (st : state) :
  get_existing_object_ids w sh = Ok idx ->
  run_outcome (fetch_and_upload fromisoformat json_loads w sh) = Finished st ->
  exists fetched rest,
    py_range max_articles page_size = fetched ++ rest
    /\ run_events (fetch_and_upload fromisoformat json_loads w sh)
       = EvRecords :: map EvGet fetched ++ fst (upload w sh st)
    /\ map row_key (batch_to_append st)
       = filter (unknown_to idx) (map hit_key (served_hits w fetched))
    /\ articles_checked st
       = List.length (filter (unknown_to idx)
                        (map hit_key (served_hits w fetched))).
Proof.
  intros X H. apply run_finished in H as (idx' & evs & _ & X' & Pg & Ev & _).
  rewrite X in X'. injection X' as <-.
  destruct (paging_keys w idx _ _ _ _ Pg) as (fetched & rest & -> & R & K).
  exists fetched, rest. split; [exact R|]. split; [exact Ev|].
  cbn [batch_to_append map app] in K. split; [exact K|].
  assert (B : balanced st).
  { apply (paging_keeps fromisoformat w idx balanced
             (fun s hit s' => visit_hit_balanced fromisoformat w idx s s' hit)
             _ (mkstate [] 0) _ _ eq_refl Pg). }
  unfold balanced in B. now rewrite <- B, <- K, length_map.
Qed.

(** *** Timestamps *)

Lemma visit_hit_stamps (w : world) (idx : list key) (st st' : state)
  (hit : value) :
  (forall n r, nth_error (batch_to_append st) n = Some r ->
               nth_error r 10 = Some (VStr (now w n))) ->
  visit_hit fromisoformat w idx st hit = Ok st' ->
  forall n r, nth_error (batch_to_append st') n = Some r ->
              nth_error r 10 = Some (VStr (now w n)).
Proof.
  intros S H n r Hn.
  apply visit_hit_cases in H as (k & _ & [[_ ->]|(_ & r' & Hr & ->)]);
    [now apply S|].
  cbn [batch_to_append] in Hn.
  destruct (Nat.lt_ge_cases n (List.length (batch_to_append st))) as [L|L].
  - rewrite nth_error_app1 in Hn by exact L. now apply S.
  - rewrite nth_error_app2 in Hn by exact L.
    destruct (n - List.length (batch_to_append st)) as [|m] eqn:D.
    + cbn in Hn. injection Hn as <-.
      assert (n = List.length (batch_to_append st)) by lia. subst n.
      apply build_article_row_cells in Hr.
      destruct Hr as (? & ? & ? & ? & ? & ? & ? & ? & ? & ? & -> & _).
      reflexivity.
    + cbn in Hn. now destruct m.
Qed.

(** Each row carries its own timestamp, read from the clock when the row
    is mapped: the n-th row of the batch is stamped with the n-th reading. *)
Theorem rows_are_stamped_in_turn (w : world) (sh : sheet) (st : state)
  (n : nat) (r : row) :
  run_outcome (fetch_and_upload fromisoformat json_loads w sh) = Finished st ->
  nth_error (batch_to_append st) n = Some r ->
  nth_error r 10 = Some (VStr (now w n)).
Proof.
  intros H. apply run_finished in H as (idx & evs & _ & _ & Pg & _).
  revert n r.
  apply (paging_keeps fromisoformat w idx
           (fun s => forall n r, nth_error (batch_to_append s) n = Some r ->
                                 nth_error r 10 = Some (VStr (now w n)))
           (fun s hit s' => visit_hit_stamps w idx s s' hit)
           _ (mkstate [] 0) _ _) with (2 := Pg).
  intros n r Hn. now destruct n.
Qed.

End BatchFacts.

Lemma batch_lists_the_unknown_hits_in_order_witness :
  let w := world_of api_one_page in
  let st := final_state (sample_run w store_with_wk2) in
  map row_key (batch_to_append st) = [Some (KStr "wk-1"); Some (KStr "wk-3")]
  /\ exists fetched rest,
       py_range max_articles page_size = fetched ++ rest
       /\ run_events (sample_run w store_with_wk2)
          = EvRecords :: map EvGet fetched ++ fst (upload w store_with_wk2 st)
       /\ map row_key (batch_to_append st)
          = filter (unknown_to [KStr "wk-2"])
                   (map hit_key (served_hits w fetched))
       /\ articles_checked st
          = List.length (filter (unknown_to [KStr "wk-2"])
                           (map hit_key (served_hits w fetched))).
Proof.
  intros w st. split; [reflexivity|].
  apply (batch_lists_the_unknown_hits_in_order IsoParser.fromisoformat
           sample_json_loads w store_with_wk2 [KStr "wk-2"] st);
    reflexivity.
Defined.

Lemma rows_are_stamped_in_turn_witness :
  let w := world_of api_one_page in
  let st := final_state (sample_run w store_with_wk2) in
  exists r,
    nth_error (batch_to_append st) 1 = Some r
    /\ nth_error r 10 = Some (VStr "2024-01-02T03:04:01").
Proof.
  intros w st.
  destruct (nth_error (batch_to_append st) 1) as [r|] eqn:E;
    [|discriminate E].
  exists r. split; [reflexivity|].
  apply (rows_are_stamped_in_turn IsoParser.fromisoformat sample_json_loads
           w store_with_wk2 st 1 r); [reflexivity | exact E].
Defined.

(** ** Object IDs across a run *)

Section UniqueIds.

Variable fromisoformat : string -> option date.
Variable json_loads : string -> option value.

Lemma run_sheet_cases (w : world) (sh : sheet) :
  run_sheet (fetch_and_upload fromisoformat json_loads w sh) = sh
  \/ exists st,
       run_outcome (fetch_and_upload fromisoformat json_loads w sh)
       = Finished st
       /\ run_sheet (fetch_and_upload fromisoformat json_loads w sh)
          = append_rows sh (batch_to_append st).
Proof.
  destruct (run_outcome (fetch_and_upload fromisoformat json_loads w sh))
    as [e|e|st] eqn:O.
  - left. revert O. unfold fetch_and_upload.
    destruct (init_sheet json_loads w) as [[]|e0]; [|reflexivity].
    destruct (get_existing_object_ids w sh); [|discriminate].
    destruct (paging fromisoformat w _ _ _) as [evs [st|e1]]; [|discriminate].
    destruct (upload w sh st). discriminate.
  - left. revert O. unfold fetch_and_upload.
    destruct (init_sheet json_loads w) as [[]|e0]; [|reflexivity].
    destruct (get_existing_object_ids w sh); [|reflexivity].
    destruct (paging fromisoformat w _ _ _) as [evs [st|e1]]; [|reflexivity].
    destruct (upload w sh st). discriminate.
  - pose proof O as O'. apply run_finished in O' as (_ & _ & _ & _ & _ & _ & S).
    rewrite S. unfold upload.
    destruct (batch_to_append st) as [|r0 b] eqn:B; cbn [snd].
    + now left.
    + destruct (append_accepted w); [|now left].
      right. exists st. now rewrite B.
Qed.

Lemma stored_keys_app (a b : list value) :
  stored_keys (a ++ b) = stored_keys a ++ stored_keys b.
Proof. unfold stored_keys. apply flat_map_app. Qed.

Lemma stored_keys_of_rows (reading : value -> value) (rs : list row) :
  Forall (fun r => List.length r = List.length COLUMNS
                   /\ reads_alike reading (object_id r) = true) rs ->
  NoDup (map row_key rs) ->
  NoDup (stored_keys (map (record_of reading COLUMNS) rs))
  /\ forall k, In k (stored_keys (map (record_of reading COLUMNS) rs)) ->
               In (Some k) (map row_key rs).
Proof.
  induction rs as [|r rs IH]; intros L N.
  - split; [constructor | intros k []].
  - inversion L as [|? ? [Lr Ar] Lrs]. subst.
    cbn [map] in N. inversion N as [|? ? Nr Nrs]. subst.
    destruct (IH Lrs Nrs) as [IH1 IH2].
    assert (Head : forall k,
               In k (stored_keys [record_of reading COLUMNS r]) ->
               row_key r = Some k).
    { intros k Hk. apply In_stored_keys in Hk
        as (rec & oid & [<-|[]] & G & T & Hh).
      rewrite (record_object_id reading r Lr) in G. injection G as <-.
      unfold reads_alike in Ar. unfold row_key.
      destruct (truthy (object_id r)).
      - destruct (hash_key (object_id r)) as [k1|e]; [|discriminate Ar].
        rewrite Hh in Ar. apply key_eqb_eq in Ar. now subst k1.
      - rewrite T in Ar. discriminate Ar. }
    change (map (record_of reading COLUMNS) (r :: rs))
      with ([record_of reading COLUMNS r] ++ map (record_of reading COLUMNS) rs).
    rewrite stored_keys_app. split.
    + apply NoDup_app; [|exact IH1|].
      * unfold stored_keys. cbn [flat_map]. rewrite app_nil_r.
        destruct (py_get _ _ _) as [oid|e]; [|constructor].
        destruct (truthy oid); [|constructor].
        destruct (hash_key oid); repeat constructor. intros [].
      * intros k Hk Hk'. apply Head in Hk. apply IH2 in Hk'.
        apply Nr. now rewrite Hk.
    + intros k Hk. apply in_app_iff in Hk as [Hk|Hk]; cbn [map].
      * left. now apply Head.
      * right. now apply IH2.
Qed.

(** Uniqueness of stored Object IDs is an invariant of a run over distinct
    hits whose identifiers read back alike: if the store has the 11-column
    header and no two of its records share a truthy Object ID, and the hits
    the API holds for the pages of the run carry pairwise distinct
    identifiers, each of which the store hands back under the same key (or
    as something falsy when it is falsy), then the store the run leaves has
    the same header and still no two records with the same truthy Object
    ID. *)
Theorem store_ids_stay_unique (w : world) (sh : sheet) :
  header sh = COLUMNS ->
  NoDup (stored_keys (get_all_records sh)) ->
  NoDup (map hit_key (served_hits w (py_range max_articles page_size))) ->
  forallb (id_reads_alike (reads_as sh))
          (served_hits w (py_range max_articles page_size)) = true ->
  header (run_sheet (fetch_and_upload fromisoformat json_loads w sh)) = COLUMNS
  /\ NoDup (stored_keys
              (get_all_records
                 (run_sheet (fetch_and_upload fromisoformat json_loads w sh)))).
Proof.
  intros Hdr N D Al.
  destruct (run_sheet_cases w sh) as [->|(st & O & ->)]; [now split|].
  split; [exact Hdr|].
  pose proof O as O'. apply run_finished in O' as (idx & evs & _ & X & Pg & _).
  rewrite get_all_records_appended, Hdr.
  rewrite stored_keys_app.
  assert (Len : Forall (fun r => List.length r = List.length COLUMNS)
                       (batch_to_append st)).
  { apply (paging_keeps fromisoformat w idx
             (fun s => Forall (fun r => List.length r = List.length COLUMNS)
                              (batch_to_append s))
             (fun s hit s' => visit_hit_row_length fromisoformat w idx s s' hit)
             _ (mkstate [] 0) _ _ (Forall_nil _) Pg). }
  pose proof (paging_origin fromisoformat w idx _ _ (fun h I => I)
                (mkstate [] 0) evs st (Forall_nil _) Pg) as Org.
  assert (Rows : Forall (fun r => List.length r = List.length COLUMNS
                                  /\ reads_alike (reads_as sh) (object_id r)
                                     = true) (batch_to_append st)).
  { rewrite Forall_forall in Len, Org |- *. intros r I.
    split; [now apply Len|].
    destruct (Org r I) as (hit & Ih & Gh).
    rewrite forallb_forall in Al. specialize (Al hit Ih).
    unfold id_reads_alike in Al.
    destruct hit as [| | | | |d]; try discriminate Al.
    cbn [py_get] in Gh. injection Gh as Gh. now rewrite Gh in Al. }
  pose proof (paging_distinct fromisoformat w idx _ (mkstate [] 0) evs st D Pg)
    as Nb.
  destruct (stored_keys_of_rows (reads_as sh) _ Rows Nb) as [N2 In2].
  apply NoDup_app; [exact N | exact N2 |].
  intros k Hk Hk'. apply In2 in Hk'.
  apply in_map_iff in Hk' as (r & Rk & Hr).
  pose proof (batch_fresh fromisoformat json_loads w sh st idx O X) as F.
  rewrite Forall_forall in F. specialize (F r Hr).
  unfold row_key in Rk. unfold py_in in F.
  destruct (hash_key (object_id r)) as [k'|e]; [|discriminate Rk].
  injection Rk as ->. cbn [bind] in F. injection F as F.
  unfold get_existing_object_ids in X.
  destruct (records_readable w); [|discriminate X].
  apply In_stored_keys in Hk.
  assert (K : key_in k idx = true)
    by (apply (collect_ids_spec _ _ _ X k); now right).
  congruence.
Qed.

End UniqueIds.

Lemma store_ids_stay_unique_witness :
  let w := world_of api_one_page in
  header store_with_wk2 = COLUMNS
  /\ forallb (id_reads_alike (reads_as store_with_wk2))
             (served_hits w (py_range max_articles page_size)) = true
  /\ stored_keys (get_all_records (run_sheet (sample_run w store_with_wk2)))
     = [KStr "wk-2"; KStr "wk-1"; KStr "wk-3"]
  /\ header (run_sheet (sample_run w store_with_wk2)) = COLUMNS
  /\ NoDup (stored_keys
              (get_all_records (run_sheet (sample_run w store_with_wk2)))).
Proof.
  intros w. split; [reflexivity|]. split; [reflexivity|].
  split; [reflexivity|].
  apply (store_ids_stay_unique IsoParser.fromisoformat sample_json_loads
           w store_with_wk2); [reflexivity| | |reflexivity].
  - repeat constructor. intros [].
  - assert (E : map hit_key (served_hits w (py_range max_articles page_size))
                = [Some (KStr "wk-1"); Some (KStr "wk-2"); Some (KStr "wk-3")])
      by reflexivity.
    rewrite E. repeat constructor; cbn; intuition discriminate.
Defined.

(** ** More on paging and dates *)

Section BudgetFacts.

Variable fromisoformat : string -> option date.
Variable json_loads : string -> option value.

(** The budget is looked at once per page, after its hits: when the count
    has reached [max_articles] at the end of a page, no later page is
    requested and the run goes on to upload all it has queued, however far
    the page took the count beyond the budget. *)
Theorem budget_reached_ends_paging (w : world) (sh : sheet) (idx : list key)
  (before : list nat) (offset : nat) (after : list nat) (st st1 : state)
  (body : value) (brk : bool) :
  init_sheet json_loads w = Ok tt ->
  get_existing_object_ids w sh = Ok idx ->
  py_range max_articles page_size = before ++ offset :: after ->
  pages_through fromisoformat w idx before (mkstate [] 0) st ->
  requests_get w offset = Json body ->
  visit_page fromisoformat w idx body st = Ok (st1, brk) ->
  max_articles <= articles_checked st1 ->
  run_outcome (fetch_and_upload fromisoformat json_loads w sh) = Finished st1
  /\ run_events (fetch_and_upload fromisoformat json_loads w sh)
     = EvRecords :: map EvGet (before ++ [offset]) ++ fst (upload w sh st1).
Proof.
  intros I X R T G V M.
  assert (B : brk = true).
  { unfold visit_page in V. apply bind_Ok in V as (hits & _ & V).
    destruct (negb (truthy hits)); [congruence|].
    apply bind_Ok in V as (items & _ & V).
    apply bind_Ok in V as (st1' & _ & V).
    assert (st1' = st1) by congruence. subst st1'.
    apply Nat.leb_le in M. congruence. }
  subst brk. unfold fetch_and_upload. rewrite I, X, R.
  rewrite (paging_through_app fromisoformat w idx before (offset :: after)
             _ st T).
  cbn [paging]. rewrite G, V. cbn [fst snd].
  destruct (upload w sh st1) as [up sh']. cbn.
  rewrite map_app. now rewrite <- !app_assoc.
Qed.

(** A truthy primary date decides the Publication Date alone: the nested
    display is not read, so it cannot make the date lookup raise. *)
Theorem primary_date_wins (hit v : value) :
  field hit "sortDate" = Some v ->
  truthy v = true ->
  publication_date fromisoformat hit
  = Ok (date_field fromisoformat (delete_char "Z") v).
Proof.
  intros F T. destruct hit as [| | | | |d]; try discriminate F.
  cbn [field] in F. unfold publication_date. cbn [py_get bind].
  rewrite F, T. cbn [bind]. now rewrite parse_date_degrades.
Qed.

End BudgetFacts.

Lemma budget_reached_ends_paging_witness :
  let w := world_of api_oversized_page in
  let st1 := final_state (sample_run w empty_store) in
  articles_checked st1 = 60
  /\ run_outcome (sample_run w empty_store) = Finished st1
  /\ run_events (sample_run w empty_store)
     = EvRecords :: map EvGet ([] ++ [0]) ++ fst (upload w empty_store st1).
Proof.
  intros w st1. split; [vm_compute; reflexivity|].
  apply (budget_reached_ends_paging IsoParser.fromisoformat sample_json_loads
           w empty_store [] [] 0 [10; 20; 30; 40] (mkstate [] 0) st1
           (VDict [("hits", VList (map numbered_hit (seq 1 60)))]) true).
  - vm_compute; reflexivity.
  - vm_compute; reflexivity.
  - vm_compute; reflexivity.
  - apply through_nil.
  - vm_compute; reflexivity.
  - vm_compute; reflexivity.
  - vm_compute. lia.
Defined.

Lemma primary_date_wins_witness :
  publication_date IsoParser.fromisoformat hit_two_dates = Ok "2024-02-29".
Proof.
  apply (primary_date_wins IsoParser.fromisoformat hit_two_dates
           (VStr "2024-02-29")); reflexivity.
Defined.
